(** * TalentLayer SDK client: escrow orchestration, fee computation,
      chain configuration and arbitrator policy

    A shallow embedding of the TypeScript client
    ([packages/client/src]): the chain configuration table
    ([config.ts]), the [Escrow] class (escrow module) and the
    [Platform] class (platform module).

    The client is asynchronous glue code around four collaborators: the
    subgraph (GraphQL) client, the ERC-20 binding, the viem wallet client
    and the [Proposal]/[Service] readers.  Every [await] is sequential, so
    a method is embedded as a computation in a small monad [Js] that
      - reads the answers of the collaborators from a [World],
      - appends every collaborator call to a trace of [Event]s, and
      - ends in a [completion]: a normal value or a thrown [JsError].
    Logger calls have no effect on the ledger or on the result and are
    left out of the trace. *)

From Stdlib Require Import ZArith Lia Ascii String Floats.
From stdpp Require Import base option list gmap strings.

Local Open Scope string_scope.
Local Open Scope Z_scope.

(** ** JavaScript preliminaries *)

(** A thrown value: every [throw] of the sources is [new Error(msg)]; the
    engine itself raises [TypeError] on a property read of [undefined]. *)
Record JsError : Type := mkJsError { ename : string; message : string }.

Definition Error (msg : string) : JsError := mkJsError "Error" msg.
Definition TypeError (msg : string) : JsError := mkJsError "TypeError" msg.

(** The outcome of evaluating an expression or awaiting a promise. *)
Inductive completion (A : Type) : Type :=
  | Normal (a : A)
  | Throw (e : JsError).
Arguments Normal {A} a.
Arguments Throw {A} e.

(** Truthiness of a string ([!s] is true exactly for the empty string) and
    of an optional string ([undefined]/[null] are falsy). *)
Definition truthy_string (s : string) : bool :=
  match s with EmptyString => false | String _ _ => true end.

Definition truthy_opt_string (o : option string) : bool :=
  match o with Some s => truthy_string s | None => false end.

(** [a || b] on an optional number: [undefined], and [0], fall through. *)
Definition or_number (a : option Z) (b : Z) : Z :=
  match a with
  | Some n => if n =? 0 then b else n
  | None => b
  end.

(** [String.prototype.toLowerCase] on ASCII strings (addresses are
    [0x]-prefixed hexadecimal strings): [A]..[Z] map to [a]..[z].  The
    definition agrees with JavaScript on the strings [is_ascii_string]
    accepts and on no others; every statement that depends on it is made
    for such strings. *)
Definition lower_ascii (c : ascii) : ascii :=
  let n := nat_of_ascii c in
  if ((65 <=? n)%nat && (n <=? 90)%nat)%bool then ascii_of_nat (n + 32) else c.

Fixpoint toLowerCase (s : string) : string :=
  match s with
  | EmptyString => EmptyString
  | String c rest => String (lower_ascii c) (toLowerCase rest)
  end.

(** The strings made of ASCII characters only. *)
Definition is_ascii (c : ascii) : bool := (nat_of_ascii c <? 128)%nat.

Fixpoint is_ascii_string (s : string) : bool :=
  match s with
  | EmptyString => true
  | String c rest => is_ascii c && is_ascii_string rest
  end.

(** [Array.prototype.includes] on an array of strings. *)
Fixpoint includes (l : list string) (x : string) : bool :=
  match l with
  | [] => false
  | y :: rest => if String.eqb y x then true else includes rest x
  end.

(** ** Constants *)

(** Modelled from the spec: [constants.ts] is imported by [config.ts] and
    by the platform module but is not among the sources.  The spec gives
    [FEE_RATE_DIVIDER] as the fixed integer 10000 and the native-currency
    sentinel as the zero address. *)
Definition FEE_RATE_DIVIDER : Z := 10000.

(** Modelled from the spec: [AddressZero] of the same [constants.ts], the
    zero address that keys the native currency in the token tables. *)
Definition AddressZero : string := "0x0000000000000000000000000000000000000000".

(** [zeroAddress] of the viem library. *)
Definition zeroAddress : string := "0x0000000000000000000000000000000000000000".

(** Modelled from the spec: the [RateToken] enumeration of [types] is not
    among the sources; [RateToken.NATIVE] is the native-currency sentinel
    (the zero address). *)
Definition RateToken_NATIVE : string := "0x0000000000000000000000000000000000000000".

(** ** Approval amount calculator *)

(** Modelled from the spec: [utils/fees.ts] ([calculateApprovalAmount]) is
    imported by the escrow module but is not among the sources.  The spec
    (section 4.3): the total is the base rate amount plus three fee
    components, each [rateAmount * feeRate / divider] in integer
    arithmetic, truncated independently, all three against the same base;
    negative inputs are rejected with [InvalidFeeRateError]. *)
Definition InvalidFeeRateError : JsError :=
  mkJsError "InvalidFeeRateError" "negative input".

Definition feeComponent (rateAmount feeRate divider : Z) : Z :=
  Z.quot (rateAmount * feeRate) divider.

Definition computeApprovalAmount
    (rateAmount originServiceFeeRate originValidatedProposalFeeRate
       protocolEscrowFeeRate divider : Z) : completion Z :=
  if ((rateAmount <? 0) || (originServiceFeeRate <? 0)
      || (originValidatedProposalFeeRate <? 0)
      || (protocolEscrowFeeRate <? 0) || (divider <? 0))%bool
  then Throw InvalidFeeRateError
  else
    let originServiceFee := feeComponent rateAmount originServiceFeeRate divider in
    let originValidatedProposalFee :=
      feeComponent rateAmount originValidatedProposalFeeRate divider in
    let protocolFee := feeComponent rateAmount protocolEscrowFeeRate divider in
    Normal (rateAmount + originServiceFee + originValidatedProposalFee + protocolFee).

(** The four-argument form called by [Escrow.approve]: the divider is the
    library constant. *)
Definition calculateApprovalAmount
    (rateAmount originServiceFeeRate originValidatedProposalFeeRate
       protocolEscrowFeeRate : Z) : completion Z :=
  computeApprovalAmount rateAmount originServiceFeeRate
    originValidatedProposalFeeRate protocolEscrowFeeRate FEE_RATE_DIVIDER.

(** Order on the outcomes of the calculator: both are amounts and the
    first is at most the second. *)
Definition approvalAmount_le (c c' : completion Z) : Prop :=
  ∃ a a', c = Normal a ∧ c' = Normal a' ∧ a ≤ a'.

(** ** Chain configuration registry ([config.ts]) *)

(** [NetworkEnum]: the six members [config.ts] and
    [blockchain-bindings/chains.ts] name. *)
Inductive NetworkEnum : Type := LOCAL | MUMBAI | AMOY | IEXEC | POLYGON | FUJI.

(** [types/index.ts] declares the numeric value of two members only,
    [LOCAL = 1337] and [MUMBAI = 80001].  The values of [AMOY], [IEXEC],
    [POLYGON] and [FUJI] are declared nowhere in the sources: they are
    parameters of the development, known only to be chain identifiers,
    that is, positive whole numbers.  Nothing is assumed about their
    being different from one another or from the two declared values. *)
Class NetworkIds : Type := mkNetworkIds
  { AMOY_id : positive;
    IEXEC_id : positive;
    POLYGON_id : positive;
    FUJI_id : positive }.

Section Registry.

Context {ids : NetworkIds}.

Definition networkId_of (n : NetworkEnum) : Z :=
  match n with
  | LOCAL => 1337
  | MUMBAI => 80001
  | AMOY => Z.pos AMOY_id
  | IEXEC => Z.pos IEXEC_id
  | POLYGON => Z.pos POLYGON_id
  | FUJI => Z.pos FUJI_id
  end.

Definition members : list NetworkEnum :=
  [AMOY; MUMBAI; IEXEC; POLYGON; FUJI; LOCAL].

(** The six members have six different values. *)
Definition distinct_ids : Prop := NoDup (map networkId_of members).

(** [IToken]; the optional [minimumTransactionAmount] is set nowhere in
    the table. *)
Record IToken : Type := mkToken
  { token_address : string;
    token_symbol : string;
    token_name : string;
    token_decimals : Z }.

(** An entry of [Config.contracts]; the ABI is kept as the name of the
    JSON module it is imported from. *)
Record Contract : Type := mkContract
  { contract_address : string;
    contract_abi : string }.

Record EscrowConfig : Type := mkEscrowConfig
  { adminFee : string;
    adminWallet : string;
    timeoutPayment : Z }.

(** [Config]: the two string-keyed objects are finite maps. *)
Record Config : Type := mkConfig
  { networkId : Z;
    subgraphUrl : string;
    contracts : gmap string Contract;
    escrowConfig : EscrowConfig;
    tokens : gmap string IToken }.

Record GraphQLConfig : Type := mkGraphQLConfig
  { gql_chainId : Z;
    gql_subgraphUrl : string }.

Definition amoy : Config :=
  {| networkId := networkId_of AMOY;
     subgraphUrl := "https://api.studio.thegraph.com/query/41228/tl-graph-amoy/v0.0.1";
     contracts :=
       list_to_map
         [ ("talentLayerId", mkContract "0xBe0d91F2371e23b9A26Fb8949E041A65dD0aDe83" "TalentLayerID");
           ("talentLayerService", mkContract "0x5394632Fe8044BF3c3eF6fBD30d1121d5d796542" "TalerLayerService");
           ("talentLayerReview", mkContract "0x194D3a30Ad6274F169c78D64A538a8F472c47819" "TalentLayerReview");
           ("talentLayerEscrow", mkContract "0x466e65231DBe87b184c7cEeE8A319b4aB117915B" "TalentLayerEscrow");
           ("talentLayerPlatformId", mkContract "0xbE56916C64f80040d46Ea5B32E1e851cE752cD3f" "TalentLayerPlatformID");
           ("talentLayerArbitrator", mkContract "0x0F39E0ffEaBE0C100768F16988F0c9405428E2D8" "TalentLayerArbitrator") ];
     escrowConfig :=
       {| adminFee := "0"; adminWallet := "0xC01FcDfDE3B2ABA1eab76731493C617FfAED2F10";
          timeoutPayment := 3600 * 24 * 7 |};
     tokens :=
       list_to_map
         [ (AddressZero, mkToken AddressZero "MATIC" "Matic" 18);
           ("0xe6b8a5CF854791412c1f6EFC7CAf629f5Df1c747", mkToken "0xe6b8a5CF854791412c1f6EFC7CAf629f5Df1c747" "USDC" "USDC Stablecoin" 6) ] |}.

Definition mumbai : Config :=
  {| networkId := networkId_of MUMBAI;
     subgraphUrl := "https://api.thegraph.com/subgraphs/name/talentlayer/talent-layer-mumbai";
     contracts :=
       list_to_map
         [ ("talentLayerId", mkContract "0x3F87289e6Ec2D05C32d8A74CCfb30773fF549306" "TalentLayerID");
           ("talentLayerService", mkContract "0x27ED516dC1df64b4c1517A64aa2Bb72a434a5A6D" "TalerLayerService");
           ("talentLayerReview", mkContract "0x050F59E1871d3B7ca97e6fb9DCE64b3818b14B18" "TalentLayerReview");
           ("talentLayerEscrow", mkContract "0x4bE920eC3e8552292B2147480111063E0dc36872" "TalentLayerEscrow");
           ("talentLayerPlatformId", mkContract "0xEFD8dbC421380Ee04BAdB69216a0FD97F64CbFD4" "TalentLayerPlatformID");
           ("talentLayerArbitrator", mkContract "0x2CA01a0058cfB3cc4755a7773881ea88eCfBba7C" "TalentLayerArbitrator") ];
     escrowConfig :=
       {| adminFee := "0"; adminWallet := "0xC01FcDfDE3B2ABA1eab76731493C617FfAED2F10";
          timeoutPayment := 3600 * 24 * 7 |};
     tokens :=
       list_to_map
         [ (AddressZero, mkToken AddressZero "MATIC" "Matic" 18);
           ("0xe6b8a5CF854791412c1f6EFC7CAf629f5Df1c747", mkToken "0xe6b8a5CF854791412c1f6EFC7CAf629f5Df1c747" "USDC" "USDC Stablecoin" 6) ] |}.

Definition iexec : Config :=
  {| networkId := networkId_of IEXEC;
     subgraphUrl := "https://thegraph-sandbox.iex.ec/subgraphs/name/users/talentLayer";
     contracts :=
       list_to_map
         [ ("talentLayerId", mkContract "0xC51537E03f56650C63A9Feca4cCb5a039c77c822" "TalentLayerID");
           ("talentLayerService", mkContract "0x45E8F869Fd316741A9316f39bF09AD03Df88496f" "TalerLayerService");
           ("talentLayerReview", mkContract "0x6A5BF452108DA389B7B38284E871f538671Ad375" "TalentLayerReview");
           ("talentLayerEscrow", mkContract "0x7A534501a6e63448EBC691f27B27B76d4F9b7E17" "TalentLayerEscrow");
           ("talentLayerPlatformId", mkContract "0x05D8A2E01EB06c284ECBae607A2d0c2BE946Bf49" "TalentLayerPlatformID");
           ("talentLayerArbitrator", mkContract "0x24cEd045b50cF811862B1c33dC6B1fbC8358F521" "TalentLayerArbitrator") ];
     escrowConfig :=
       {| adminFee := "0"; adminWallet := "0x2E6f7222d4d7A71B05E7C35389d23C3dB400851f";
          timeoutPayment := 3600 * 24 * 7 |};
     tokens :=
       list_to_map
         [ ("0x0000000000000000000000000000000000000000", mkToken "0x0000000000000000000000000000000000000000" "RLC" "iExec RLC" 18);
           ("0xe62C28709E4F19Bae592a716b891A9B76bf897E4", mkToken "0xe62C28709E4F19Bae592a716b891A9B76bf897E4" "SERC20" "SimpleERC20" 18) ] |}.

Definition polygon : Config :=
  {| networkId := networkId_of POLYGON;
     subgraphUrl := "https://api.thegraph.com/subgraphs/name/talentlayer/talentlayer-polygon";
     contracts :=
       list_to_map
         [ ("talentLayerId", mkContract "0xD7D1B2b0A665F03618cb9a45Aa3070f789cb91f2" "TalentLayerID");
           ("talentLayerService", mkContract "0xae8Bba1a403816568230d92099ccB87f41BbcA78" "TalerLayerService");
           ("talentLayerReview", mkContract "0x7bBC20c8Fcb75A126810161DFB1511f6D3B1f2bE" "TalentLayerReview");
           ("talentLayerEscrow", mkContract "0x21C716673897f4a2A3c12053f3973F51Ce7b0cf6" "TalentLayerEscrow");
           ("talentLayerPlatformId", mkContract "0x09FF07297d48eD9aD870caCE4b33BF30869C1D17" "TalentLayerPlatformID");
           ("talentLayerArbitrator", mkContract "0x4502E695A747F1b382a16D6C8AE3FD94DA78e7a0" "TalentLayerArbitrator") ];
     escrowConfig :=
       {| adminFee := "0"; adminWallet := "0x2E6f7222d4d7A71B05E7C35389d23C3dB400851f";
          timeoutPayment := 3600 * 24 * 7 |};
     tokens :=
       list_to_map
         [ ("0x0000000000000000000000000000000000000000", mkToken "0x0000000000000000000000000000000000000000" "MATIC" "Matic" 18);
           ("0x2791Bca1f2de4661ED88A30C99A7a9449Aa84174", mkToken "0x2791Bca1f2de4661ED88A30C99A7a9449Aa84174" "USDC" "USDC" 6);
           ("0x7ceB23fD6bC0adD59E62ac25578270cFf1b9f619", mkToken "0x7ceB23fD6bC0adD59E62ac25578270cFf1b9f619" "WETH" "WETH" 18) ] |}.

Definition fuji : Config :=
  {| networkId := networkId_of FUJI;
     subgraphUrl := "https://api.studio.thegraph.com/query/41228/tl-graph-fuji/version/latest";
     contracts :=
       list_to_map
         [ ("talentLayerId", mkContract "0x11BF027d41011a050c77E3BE7fB1942500C29928" "TalentLayerID");
           ("talentLayerService", mkContract "0x037a42146f7803Ac85Eeb201A8aab483E10c3E1A" "TalerLayerService");
           ("talentLayerReview", mkContract "0x5b1e55ca26f8128155f35a0c5804e292B1b66bb7" "TalentLayerReview");
           ("talentLayerEscrow", mkContract "0x2D11f75E4af6626bA457532429D5FA6bF18ac011" "TalentLayerEscrow");
           ("talentLayerPlatformId", mkContract "0x5582d6493449a9c8aE353715eaE55794056dBF19" "TalentLayerPlatformID");
           ("talentLayerArbitrator", mkContract "0x0000000000000000000000000000000000000000" "TalentLayerArbitrator") ];
     escrowConfig :=
       {| adminFee := "0"; adminWallet := "0x754edfB906252B304f89c59c61f4368028bdcE6c";
          timeoutPayment := 3600 * 24 * 7 |};
     tokens :=
       list_to_map
         [ ("0x0000000000000000000000000000000000000000", mkToken "0x0000000000000000000000000000000000000000" "AVAX" "Avax" 18);
           ("0xAF82969ECF299c1f1Bb5e1D12dDAcc9027431160", mkToken "0xAF82969ECF299c1f1Bb5e1D12dDAcc9027431160" "USDC" "USDC Stablecoin" 6) ] |}.

(** The table [chains]; [LOCAL] is a placeholder bound to [mumbai].  The
    entries of the object literal are written in source order, the first
    innermost: where two members have the same value, the later entry
    is the one the object keeps. *)
Definition chains : gmap Z Config :=
  <[networkId_of LOCAL := mumbai]>
    (<[networkId_of FUJI := fuji]>
       (<[networkId_of POLYGON := polygon]>
          (<[networkId_of IEXEC := iexec]>
             (<[networkId_of MUMBAI := mumbai]>
                (<[networkId_of AMOY := amoy]> ∅))))).

(** [getChainConfig = (networkId) => chains[networkId]]: a property read,
    [None] is JavaScript's [undefined].  The argument is the number the
    caller passes at run time. *)
Definition getChainConfig (networkId : Z) : option Config :=
  chains !! networkId.

(** [getGraphQLConfig]: reads [subgraphUrl] off the looked-up
    configuration, which raises [TypeError] on [undefined]. *)
Definition getGraphQLConfig (chainId : Z) : completion GraphQLConfig :=
  match getChainConfig chainId with
  | Some c => Normal (mkGraphQLConfig chainId (subgraphUrl c))
  | None => Throw (TypeError "Cannot read properties of undefined (reading 'subgraphUrl')")
  end.

End Registry.

(** ** Collaborators, events and the [Js] monad *)

(** A value passed to a contract call.  [parseInt(s, radix)] and the
    decimal rendering of a bigint are recorded as they are written. *)
Inductive JsValue : Type :=
  | VNumber (n : Z)
  | VFloat (f : float)
  | VString (s : string)
  | VParseInt (s : string) (radix : option Z)
  | VBigIntToString (n : Z).

(** The proposal snapshot returned by [Proposal.getOne], with the fields
    [approve] reads: [cid], [seller.id], [service.platform.id],
    [platform.id], [rateAmount] and [rateToken.address]. *)
Record Proposal : Type := mkProposal
  { cid : option string;
    seller_id : string;
    service_platform_id : string;
    platform_id : string;
    rateAmount : Z;
    rateToken_address : string }.

(** The service snapshot returned by [Service.getOne]; [release] and
    [reimburse] read [service?.transaction?.id]. *)
Record Transaction : Type := mkTransaction { transaction_id : string }.
Record Service : Type := mkService { transaction : option Transaction }.

(** The [data] of the fee query: two platform records, either of which
    may be [null], and the array of protocol records. *)
Record ServicePlatformFees : Type :=
  mkServicePlatformFees { originServiceFeeRate : Z }.
Record ProposalPlatformFees : Type :=
  mkProposalPlatformFees { originValidatedProposalFeeRate : Z }.
Record ProtocolFees : Type :=
  mkProtocolFees { protocolEscrowFeeRate : Z }.

Record ProtocolAndPlatformsFees : Type := mkFees
  { servicePlatform : option ServicePlatformFees;
    proposalPlatform : option ProposalPlatformFees;
    protocols : list ProtocolFees }.

Record GraphQLResponse : Type := mkResponse
  { data : option ProtocolAndPlatformsFees }.

(** The queries of [escrow/graphql/queries] are kept as their call. *)
Inductive GraphQLQuery : Type :=
  | QueryProtocolAndPlatformsFees
      (originServicePlatformId originValidatedProposalPlatformId : string).

Record TransactionReceipt : Type := mkReceipt { status : string }.

Record ClientTransactionResponse : Type := mkClientTransactionResponse
  { tx : string;
    response_cid : string }.

(** One entry per call that leaves the client. *)
Inductive Event : Type :=
  | EProposalGetOne (platformID : Z) (proposalId : string)
  | EServiceGetOne (platformID : Z) (serviceId : string)
  | EGraphQLGet (query : GraphQLQuery)
  | ECheckAllowance (token : string)
  | EErc20Approve (token : string) (amount : Z)
  | EWaitForTransactionReceipt (hash : string)
  | EWriteContract (contract functionName : string) (args : list JsValue)
      (value : option Z).

(** What the collaborators answer.  A rejected promise is a [Throw]. *)
Record World : Type := mkWorld
  { proposal_getOne : Z → string → completion (option Proposal);
    service_getOne : Z → string → completion (option Service);
    graphql_get : GraphQLQuery → completion (option GraphQLResponse);
    erc20_checkAllowance : string → completion Z;
    erc20_approve : string → Z → completion string;
    waitForTransactionReceipt : string → completion TransactionReceipt;
    writeContract :
      string → string → list JsValue → option Z → completion string }.

Definition Js (A : Type) : Type := World → list Event * completion A.

Definition Js_ret {A} (a : A) : Js A := λ _, ([], Normal a).

Definition Js_bind {A B} (f : A → Js B) (m : Js A) : Js B :=
  λ w,
    match m w with
    | (t1, Normal a) =>
        match f a w with
        | (t2, c) => (app t1 t2, c)
        end
    | (t1, Throw e) => (t1, Throw e)
    end.

Definition throw {A} (e : JsError) : Js A := λ _, ([], Throw e).

(** [try { m } catch (e) { h e }]. *)
Definition try_catch {A} (m : Js A) (h : JsError → Js A) : Js A :=
  λ w,
    match m w with
    | (t1, Normal a) => (t1, Normal a)
    | (t1, Throw e) =>
        match h e w with
        | (t2, c) => (app t1 t2, c)
        end
    end.

(** A synchronous step that may throw. *)
Definition lift {A} (c : completion A) : Js A := λ _, ([], c).

(** An awaited call to a collaborator. *)
Definition call {A} (ev : Event) (answer : World → completion A) : Js A :=
  λ w, ([ev], answer w).

#[global] Instance Js_mret : MRet Js := @Js_ret.
#[global] Instance Js_mbind : MBind Js := @Js_bind.

Definition trace {A} (r : list Event * completion A) : list Event := fst r.
Definition outcome {A} (r : list Event * completion A) : completion A := snd r.

(** Classification of events by the component they reach. *)
Definition is_fee_resolver_call (e : Event) : bool :=
  match e with
  | EGraphQLGet (QueryProtocolAndPlatformsFees _ _) => true
  | _ => false
  end.

Definition is_allowance_call (e : Event) : bool :=
  match e with
  | ECheckAllowance _ | EErc20Approve _ _ | EWaitForTransactionReceipt _ => true
  | _ => false
  end.

Definition is_erc20_approve (e : Event) : bool :=
  match e with EErc20Approve _ _ => true | _ => false end.

Definition is_ledger_write (e : Event) : bool :=
  match e with
  | EWriteContract _ _ _ _ | EErc20Approve _ _ => true
  | _ => false
  end.

(** ** Untyped answers and the off-chain collaborators *)

(** The methods that hand an answer of the subgraph back to the caller
    treat it as [any].  [Json] is such a value. *)
#[warnings="-register-all"]
Inductive Json : Type :=
  | JUndefined
  | JNull
  | JBool (b : bool)
  | JNumber (n : float)
  | JString (s : string)
  | JArray (items : list Json)
  | JObject (fields : list (string * Json)).

(** Truthiness: [undefined], [null], [false], [0], [-0], [NaN] and the
    empty string are falsy; arrays and objects are truthy, empty or not. *)
Definition truthy (v : Json) : bool :=
  match v with
  | JUndefined | JNull => false
  | JBool b => b
  | JNumber n => PrimFloat.eqb n n && negb (PrimFloat.eqb n 0)
  | JString s => truthy_string s
  | JArray _ | JObject _ => true
  end.

(** [a || b] and [a && b]. *)
Definition js_or (a b : Json) : Json := if truthy a then a else b.
Definition js_and (a b : Json) : Json := if truthy a then b else a.

(** The value of a property in a property list; the last entry of a name
    is the one an object keeps. *)
Fixpoint property (name : string) (fields : list (string * Json)) : option Json :=
  match fields with
  | [] => None
  | (k, v) :: rest =>
      match property name rest with
      | Some v' => Some v'
      | None => if String.eqb k name then Some v else None
      end
  end.

(** [v.name] on a value that is neither [undefined] nor [null], for the
    property names the client reads ([data], [platform], [users], ...):
    none of them is a built-in property of a string, number, boolean or
    array, so only an object can have it. *)
Definition get (name : string) (v : Json) : Json :=
  match v with
  | JObject fields => default JUndefined (property name fields)
  | _ => JUndefined
  end.

(** [v?.name]. *)
Definition opt_get (name : string) (v : Json) : Json :=
  match v with
  | JUndefined | JNull => JUndefined
  | _ => get name v
  end.

Definition isArray (v : Json) : bool :=
  match v with JArray _ => true | _ => false end.

(** [v[0]] on an array. *)
Definition first_item (v : Json) : Json :=
  match v with
  | JArray (x :: _) => x
  | _ => JUndefined
  end.

(** The queries of the [graphql] modules, kept as their call. *)
Inductive SubgraphQuery : Type :=
  | QueryPlatformById (id : string)
  | QueryPlatformsByOwner (address : string)
  | QueryPaymentsByService (serviceId : string) (paymentType : option string)
  | QueryProfileByAddress (address : string)
  | QueryProfileById (userId : string)
  | QueryProtocolById (id : Z)
  | QueryProfiles (numberPerPage offset : option Z) (searchQuery : option string)
  | QueryUserTotalGains (userId : string)
  | QueryPaymentsForUser (userId : string) (numberPerPage offset : option Z)
      (startDate endDate : option string)
  | QueryMintFees.

(** A call that leaves the client: one on the ledger side, a subgraph
    read, or a post to the content store, recorded with the value whose
    JSON text is posted. *)
Inductive ClientEvent : Type :=
  | OnLedger (e : Event)
  | ESubgraphGet (query : SubgraphQuery)
  | EIpfsPost (data : Json).

(** The collaborators of a whole client: the ledger side, the subgraph
    as it answers untyped reads, and the content store. *)
Record Client : Type := mkClient
  { ledger : World;
    subgraph_get : SubgraphQuery → completion Json;
    ipfs_post : Json → completion string }.

Definition JsC (A : Type) : Type := Client → list ClientEvent * completion A.

Definition JsC_ret {A} (a : A) : JsC A := λ _, ([], Normal a).

Definition JsC_bind {A B} (f : A → JsC B) (m : JsC A) : JsC B :=
  λ c,
    match m c with
    | (t1, Normal a) =>
        match f a c with
        | (t2, r) => (app t1 t2, r)
        end
    | (t1, Throw e) => (t1, Throw e)
    end.

Definition throwC {A} (e : JsError) : JsC A := λ _, ([], Throw e).

Definition callC {A} (ev : ClientEvent) (answer : Client → completion A) : JsC A :=
  λ c, ([ev], answer c).

(** A synchronous step that may throw. *)
Definition liftC {A} (r : completion A) : JsC A := λ _, ([], r).

(** A ledger-side computation, run inside the client. *)
Definition on_ledger {A} (m : Js A) : JsC A :=
  λ c,
    match m (ledger c) with
    | (t, r) => (map OnLedger t, r)
    end.

Definition traceC {A} (r : list ClientEvent * completion A) : list ClientEvent :=
  fst r.
Definition outcomeC {A} (r : list ClientEvent * completion A) : completion A :=
  snd r.

#[global] Instance JsC_mret : MRet JsC := @JsC_ret.
#[global] Instance JsC_mbind : MBind JsC := @JsC_bind.

(** An awaited read of the subgraph. *)
Definition graphQlClient_get (query : SubgraphQuery) : JsC Json :=
  callC (ESubgraphGet query) (λ c, subgraph_get c query).

(** [ipfs.post(JSON.stringify(data))]. *)
Definition ipfs_upload (data : Json) : JsC string :=
  callC (EIpfsPost data) (λ c, ipfs_post c data).

(** [wallet.writeContract(...)] from a method of the whole client. *)
Definition wallet_writeContract (contract functionName : string)
    (args : list JsValue) (value : option Z) : JsC string :=
  on_ledger
    (call (EWriteContract contract functionName args value)
          (λ w, writeContract w contract functionName args value)).

Definition is_client_write (e : ClientEvent) : bool :=
  match e with
  | OnLedger (EWriteContract _ _ _ _) => true
  | _ => false
  end.

(** ** Escrow ([escrow/index.ts]) *)

Module Escrow.

Record t : Type := mk { platformID : Z; chainId : Z }.

(** [getProtocolAndPlatformsFees]: [response?.data || null]. *)
Definition getProtocolAndPlatformsFees
    (originServicePlatformId originValidatedProposalPlatformId : string)
    : Js (option ProtocolAndPlatformsFees) :=
  let query :=
    QueryProtocolAndPlatformsFees originServicePlatformId
      originValidatedProposalPlatformId in
  response ← call (EGraphQLGet query) (λ w, graphql_get w query);
  mret (response ≫= data).

(** The arguments of [createTransaction]. *)
Definition createTransactionArgs
    (serviceId sellerId metaEvidenceCid cid : string) : list JsValue :=
  [VParseInt serviceId (Some 10); VParseInt sellerId (Some 10);
   VString metaEvidenceCid; VString cid].

(** The body of the [try] block: submit the approval, wait for its
    receipt, throw when the receipt is not a success. *)
Definition requestApproval (token : string) (approvalAmount : Z) : Js unit :=
  approvalTransaction ←
    call (EErc20Approve token approvalAmount)
         (λ w, erc20_approve w token approvalAmount);
  approvalTransactionReceipt ←
    call (EWaitForTransactionReceipt approvalTransaction)
         (λ w, waitForTransactionReceipt w approvalTransaction);
  if String.eqb (status approvalTransactionReceipt) "success"
  then mret ()
  else throw (Error "Unable to get approval").

Definition approve (this : t)
    (serviceId proposalId metaEvidenceCid : string) (platformId : option Z)
    : Js ClientTransactionResponse :=
  let platformID := or_number platformId (platformID this) in
  proposal ←
    call (EProposalGetOne platformID proposalId)
         (λ w, proposal_getOne w platformID proposalId);
  match proposal with
  | None => throw (Error "Proposal not found")
  | Some proposal =>
      if negb (truthy_opt_string (cid proposal))
      then throw (Error "Proposal cid not found")
      else
        let sellerId := seller_id proposal in
        let cid := default "" (cid proposal) in
        protocolAndPlatformsFees ←
          getProtocolAndPlatformsFees
            (service_platform_id proposal) (platform_id proposal);
        match protocolAndPlatformsFees with
        | None => throw (Error "Unable to fetch fees")
        | Some fees =>
            originServiceFeeRate ←
              lift (match servicePlatform fees with
                    | Some p => Normal (originServiceFeeRate p)
                    | None => Throw (TypeError "Cannot read properties of null (reading 'originServiceFeeRate')")
                    end);
            originValidatedProposalFeeRate ←
              lift (match proposalPlatform fees with
                    | Some p => Normal (originValidatedProposalFeeRate p)
                    | None => Throw (TypeError "Cannot read properties of null (reading 'originValidatedProposalFeeRate')")
                    end);
            protocolEscrowFeeRate ←
              lift (match protocols fees with
                    | p :: _ => Normal (protocolEscrowFeeRate p)
                    | [] => Throw (TypeError "Cannot read properties of undefined (reading 'protocolEscrowFeeRate')")
                    end);
            approvalAmount ←
              lift (calculateApprovalAmount (rateAmount proposal)
                      originServiceFeeRate originValidatedProposalFeeRate
                      protocolEscrowFeeRate);
            let args :=
              createTransactionArgs serviceId sellerId metaEvidenceCid cid in
            tx ←
              (if String.eqb (rateToken_address proposal) RateToken_NATIVE
               then
                 call (EWriteContract "talentLayerEscrow" "createTransaction"
                         args (Some approvalAmount))
                      (λ w, writeContract w "talentLayerEscrow"
                              "createTransaction" args (Some approvalAmount))
               else
                 allowance ←
                   call (ECheckAllowance (rateToken_address proposal))
                        (λ w, erc20_checkAllowance w
                                (rateToken_address proposal));
                 (if allowance <? approvalAmount
                  then
                    try_catch
                      (requestApproval (rateToken_address proposal)
                         approvalAmount)
                      (λ e, throw (Error "Approval transaction failed with error"))
                  else mret ());;
                 call (EWriteContract "talentLayerEscrow" "createTransaction"
                         args None)
                      (λ w, writeContract w "talentLayerEscrow"
                              "createTransaction" args None));
            if truthy_string tx
            then mret (mkClientTransactionResponse tx cid)
            else throw (Error "Error creating Transaction")
        end
  end.

(** [service?.transaction?.id]. *)
Definition transactionId_of (service : option Service) : option string :=
  s ← service; t ← transaction s; Some (transaction_id t).

Definition release (this : t)
    (serviceId : string) (amount : Z) (userId : Z) (platformId : option Z)
    : Js string :=
  let platformID := or_number platformId (platformID this) in
  service ←
    call (EServiceGetOne platformID serviceId)
         (λ w, service_getOne w platformID serviceId);
  let transactionId := transactionId_of service in
  if negb (truthy_opt_string transactionId)
  then throw (Error "service transaction not found")
  else
    if negb (truthy_opt_string transactionId)
    then throw (Error "Transaction Id not found for service")
    else
      let args :=
        [VNumber userId; VParseInt (default "" transactionId) None;
         VBigIntToString amount] in
      call (EWriteContract "talentLayerEscrow" "release" args None)
           (λ w, writeContract w "talentLayerEscrow" "release" args None).

Definition reimburse (this : t)
    (serviceId : string) (amount : Z) (userId : Z) (platformId : option Z)
    : Js string :=
  let platformID := or_number platformId (platformID this) in
  service ←
    call (EServiceGetOne platformID serviceId)
         (λ w, service_getOne w platformID serviceId);
  let transactionId := transactionId_of service in
  if negb (truthy_opt_string transactionId)
  then throw (Error "service transaction not found")
  else
    if negb (truthy_opt_string transactionId)
    then throw (Error "Transaction Id not found for service")
    else
      let args :=
        [VNumber userId; VParseInt (default "" transactionId) None;
         VBigIntToString amount] in
      call (EWriteContract "talentLayerEscrow" "reimburse" args None)
           (λ w, writeContract w "talentLayerEscrow" "reimburse" args None).

(** [getByService]: [response?.data?.payments || null]. *)
Definition getByService (serviceId : string) (paymentType : option string)
    : JsC Json :=
  response ← graphQlClient_get (QueryPaymentsByService serviceId paymentType);
  mret (js_or (opt_get "payments" (opt_get "data" response)) JNull).

End Escrow.

(** ** Numbers *)

(** A JavaScript [number] is a binary64 float.  [number_of_Z] is the
    number an integer literal denotes (exact below [2^53]). *)
Definition number_of_Z (z : Z) : float :=
  match z with
  | Z0 => PrimFloat.zero
  | Zpos p => SF2Prim (S754_finite false p 0)
  | Zneg p => SF2Prim (S754_finite true p 0)
  end.

(** [Math.round]: a number that is not finite, or is integral, is
    returned as it is; otherwise the result is the integer closest to
    [x], the one towards [+∞] on a tie, that is [floor (x + 1/2)] taken
    exactly; a zero result keeps the sign of [x].  A finite [x] is
    [± m * 2^e]; it has a fractional part only when [e < 0], and then
    [nearest_integer (± m) e] is [floor (± m * 2^e + 1/2)]. *)
Definition nearest_integer (num e : Z) : Z :=
  (2 * num + 2 ^ (- e)) / 2 ^ (1 - e).

Definition Math_round (x : float) : float :=
  match Prim2SF x with
  | S754_finite s m e =>
      if 0 <=? e then x
      else
        let num := if s then Z.neg m else Z.pos m in
        let k := nearest_integer num e in
        if k =? 0 then (if s then PrimFloat.neg_zero else PrimFloat.zero)
        else number_of_Z k
  | _ => x
  end.

(** [Math.trunc], for comparison with [Math.round]. *)
Definition Math_trunc (x : float) : float :=
  match Prim2SF x with
  | S754_finite s m e =>
      if 0 <=? e then x
      else
        let k := Z.pos m / 2 ^ (- e) in
        if k =? 0 then (if s then PrimFloat.neg_zero else PrimFloat.zero)
        else number_of_Z (if s then - k else k)
  | _ => x
  end.

(** What the language definition asks of [r = Math.round(x)], on the
    exact value of [x]: a number that is not finite or has no fractional
    part is returned as it is; otherwise [x = num * 2^e] with [e < 0] and
    [r] is the integer [k] with [k - 1/2 ≤ x < k + 1/2] (the nearest
    integer, the upper one on a tie), a zero keeping the sign of [x].  The
    inequality is written without fractions, both sides multiplied by
    [2 * 2^(-e)]. *)
Definition rounds_half_up (x r : float) : Prop :=
  match Prim2SF x with
  | S754_finite s m e =>
      if 0 <=? e then r = x
      else
        ∃ k : Z,
          (2 * k - 1) * 2 ^ (- e) ≤ 2 * (if s then Z.neg m else Z.pos m)
            < (2 * k + 1) * 2 ^ (- e)
          ∧ r = (if k =? 0
                 then (if s then PrimFloat.neg_zero else PrimFloat.zero)
                 else number_of_Z k)
  | _ => r = x
  end.

(** ** Platform ([platform/index.ts]) *)

Record Arbitrator : Type := mkArbitrator
  { arbitrator_address : string;
    arbitrator_name : string }.

Module Platform.

(** Modelled from the spec: the [CustomConfig] type of [types] is not
    among the sources.  It is the caller-supplied override of the static
    table; the platform reads its [contractConfig]. *)
Record CustomConfig : Type := mkCustomConfig { contractConfig : Config }.

(** The fields of the instance the methods below read; [wallet_chainId]
    is [this.wallet.chainId]. *)
Record t : Type := mk
  { platformID : Z;
    customConfig : option CustomConfig;
    wallet_chainId : Z }.

Section Arbitrators.

Context {ids : NetworkIds}.

(** The configuration [getArbitrators] selects: a custom configuration
    takes precedence over the static table. *)
Definition chainConfig_of (this : t) (chainId : Z) : option Config :=
  match customConfig this with
  | Some custom => Some (contractConfig custom)
  | None => getChainConfig chainId
  end.

Definition getArbitrators (this : t) (chainId : Z)
    : completion (list Arbitrator) :=
  match chainConfig_of this chainId with
  | None =>
      Throw (TypeError "Cannot read properties of undefined (reading 'contracts')")
  | Some chainConfig =>
      match contracts chainConfig !! "talentLayerArbitrator" with
      | None =>
          Throw (TypeError "Cannot read properties of undefined (reading 'address')")
      | Some contract =>
          Normal
            [ mkArbitrator zeroAddress "None";
              mkArbitrator (contract_address contract) "TalentLayer Arbitrator" ]
      end
  end.

Definition updateArbitrator (this : t) (address : string)
    (platformId : option Z) : Js string :=
  let platformID := or_number platformId (platformID this) in
  allowedArbitrators ← lift (getArbitrators this (wallet_chainId this));
  let allowedArbitratorAddresses :=
    map (λ _arbitrator, toLowerCase (arbitrator_address _arbitrator))
        allowedArbitrators in
  if negb (includes allowedArbitratorAddresses (toLowerCase address))
  then throw (Error (String.append "Invalid Arbitrator: " address))
  else
    let args := [VNumber platformID; VString address; VString ""] in
    call (EWriteContract "talentLayerPlatformId" "updateArbitrator" args None)
         (λ w, writeContract w "talentLayerPlatformId" "updateArbitrator"
                 args None).

End Arbitrators.

Definition updateOriginServiceFeeRate (this : t) (value : float)
    (platformId : option Z) : Js string :=
  let platformID := or_number platformId (platformID this) in
  let transformedFeeRate :=
    Math_round ((value * number_of_Z FEE_RATE_DIVIDER) / 100)%float in
  let args := [VNumber platformID; VFloat transformedFeeRate] in
  call (EWriteContract "talentLayerPlatformId" "updateOriginServiceFeeRate"
          args None)
       (λ w, writeContract w "talentLayerPlatformId"
               "updateOriginServiceFeeRate" args None).

Definition updateOriginValidatedProposalFeeRate (this : t) (value : float)
    (platformId : option Z) : Js string :=
  let platformID := or_number platformId (platformID this) in
  let transformedFeeRate :=
    Math_round ((value * number_of_Z FEE_RATE_DIVIDER) / 100)%float in
  let args := [VNumber platformID; VFloat transformedFeeRate] in
  call (EWriteContract "talentLayerPlatformId"
          "updateOriginValidatedProposalFeeRate" args None)
       (λ w, writeContract w "talentLayerPlatformId"
               "updateOriginValidatedProposalFeeRate" args None).

Definition UPDATE_ERROR : string := "unable to update platform details".

Definition getOne (id : string) : JsC Json :=
  response ← graphQlClient_get (QueryPlatformById id);
  if truthy (opt_get "platform" (opt_get "data" response))
  then mret (opt_get "platform" (opt_get "data" response))
  else mret JNull.

Definition upload (data : Json) : JsC string := ipfs_upload data.

Definition getByOwner (address : string) : JsC Json :=
  response ← graphQlClient_get (QueryPlatformsByOwner address);
  if truthy (opt_get "platforms" (opt_get "data" response))
  then mret (opt_get "platforms" (opt_get "data" response))
  else mret (JArray []).

Definition update (this : t) (data : Json) (platformId : option Z)
    : JsC ClientTransactionResponse :=
  let platformID := or_number platformId (platformID this) in
  cid ← upload data;
  tx ← wallet_writeContract "talentLayerPlatformId" "updateProfileData"
         [VNumber platformID; VString cid] None;
  if negb (truthy_string cid) || negb (truthy_string tx)
  then throwC (Error UPDATE_ERROR)
  else mret (mkClientTransactionResponse tx cid).




End Platform.

(** ** Profile ([profile/index.ts]) *)

(** [BigInt(v)] is taken as it is given: the methods below hold for any
    conversion of an untyped value to a bigint that may throw. *)
Module Profile.

Record t : Type := mk { platformId : Z }.

Definition CREATE_ERROR : string := "unable to create profile".
Definition UPDATE_ERROR : string := "unable to update profile".

Definition getByAddress (address : string) : JsC Json :=
  response ← graphQlClient_get (QueryProfileByAddress address);
  if truthy
       (js_and
          (js_and response (opt_get "users" (opt_get "data" response)))
          (JBool (isArray (opt_get "users" (opt_get "data" response)))))
  then mret (first_item (opt_get "users" (opt_get "data" response)))
  else mret JNull.

Definition getById (userId : string) : JsC Json :=
  response ← graphQlClient_get (QueryProfileById userId);
  mret (js_or (opt_get "user" (opt_get "data" response)) JNull).

Definition upload (profileData : Json) : JsC string := ipfs_upload profileData.

Definition update (profileData : Json) (userId : string)
    : JsC ClientTransactionResponse :=
  cid ← upload profileData;
  tx ← wallet_writeContract "talentLayerId" "updateProfileData"
         [VString userId; VString cid] None;
  if truthy_string cid && truthy_string tx
  then mret (mkClientTransactionResponse tx cid)
  else throwC (Error UPDATE_ERROR).

(** [platformID.toString()] is the decimal text of the identifier. *)
Definition create (BigInt : Json → completion Z) (this : t)
    (handle : string) (platformId : option Z) : JsC string :=
  let platformID := or_number platformId (Profile.platformId this) in
  proposolResponse ← graphQlClient_get (QueryProtocolById 1);
  let protocol := opt_get "protocol" (opt_get "data" proposolResponse) in
  if negb (truthy (opt_get "id" protocol))
  then throwC (Error "Protocol not found")
  else
    let fee := get "userMintFee" protocol in
    value ← liftC (BigInt fee);
    wallet_writeContract "talentLayerId" "mint"
      [VBigIntToString platformID; VString handle] (Some value).

Definition createForAddress (BigInt : Json → completion Z)
    (handle userAddress : string) (platformId : Z) (handlePrice : string)
    : JsC string :=
  value ← liftC (BigInt (JString handlePrice));
  wallet_writeContract "talentLayerId" "mintForAddress"
    [VString userAddress; VNumber platformId; VString handle] (Some value).

(** [getBy] returns the answer of the subgraph as it is. *)
Definition getBy (numberPerPage offset : option Z) (searchQuery : option string)
    : JsC Json :=
  graphQlClient_get (QueryProfiles numberPerPage offset searchQuery).

Definition getTotalGains (userId : string) : JsC Json :=
  response ← graphQlClient_get (QueryUserTotalGains userId);
  mret (js_or (opt_get "totalGains" (opt_get "user" (opt_get "data" response)))
          JNull).

Definition getPayments (userId : string) (numberPerPage offset : option Z)
    (startDate endDate : option string) : JsC Json :=
  response ←
    graphQlClient_get
      (QueryPaymentsForUser userId numberPerPage offset startDate endDate);
  mret (js_or (opt_get "payments" (opt_get "data" response)) JNull).

Definition getMintFees : JsC Json :=
  response ← graphQlClient_get QueryMintFees;
  mret (js_or (opt_get "data" response) JNull).

End Profile.

(** ** Chain definitions ([blockchain-bindings/chains.ts]) *)

Record NativeCurrency : Type := mkNativeCurrency
  { currency_decimals : Z;
    currency_name : string;
    currency_symbol : string }.

Record BlockExplorer : Type := mkBlockExplorer
  { explorer_name : string;
    explorer_url : string }.

Record Multicall3 : Type := mkMulticall3
  { multicall3_address : string;
    blockCreated : Z }.

(** The fields [defineChain] is given in this file. *)
Record ChainDefinition : Type := mkChainDefinition
  { chain_id : Z;
    chain_name : string;
    chain_network : string;
    nativeCurrency : NativeCurrency;
    rpcUrls_default_http : list string;
    rpcUrls_public_http : list string;
    blockExplorers_default : BlockExplorer;
    contracts_multicall3 : option Multicall3;
    testnet : bool }.

Definition iexec_chain : ChainDefinition :=
  {| chain_id := 134;
     chain_name := "iExec Sidechain";
     chain_network := "iexec";
     nativeCurrency := mkNativeCurrency 18 "xRLC" "xRLC";
     rpcUrls_default_http := ["https://bellecour.iex.ec"];
     rpcUrls_public_http := ["https://bellecour.iex.ec"];
     blockExplorers_default :=
       mkBlockExplorer "BlockScout" "https://blockscout-bellecour.iex.ec/";
     contracts_multicall3 := None;
     testnet := false |}.

Definition polygonAmoy : ChainDefinition :=
  {| chain_id := 80002;
     chain_name := "Polygon Amoy";
     chain_network := "polygon";
     nativeCurrency := mkNativeCurrency 18 "MATIC" "MATIC";
     rpcUrls_default_http := ["https://rpc-amoy.polygon.technology"];
     rpcUrls_public_http := ["https://rpc-amoy.polygon.technology"];
     blockExplorers_default :=
       mkBlockExplorer "PolygonScan" "https://amoy.polygonscan.com/";
     contracts_multicall3 :=
       Some (mkMulticall3 "0xca11bde05977b3631167028862be2a173976ca11" 3127388);
     testnet := true |}.

(** An entry of the table of chains: a chain defined in this file, or
    one imported from [viem/chains], kept as the name it is imported
    under. *)
Inductive ChainEntry : Type :=
  | DefinedHere (chain : ChainDefinition)
  | FromViem (exportName : string).

Section ChainDefinitions.

Context {ids : NetworkIds}.

(** The table [chains] of [blockchain-bindings/chains.ts], its entries in
    source order, the first innermost. *)
Definition viem_chains : gmap Z ChainEntry :=
  <[networkId_of POLYGON := FromViem "polygon"]>
    (<[networkId_of IEXEC := DefinedHere iexec_chain]>
       (<[networkId_of AMOY := DefinedHere polygonAmoy]>
          (<[networkId_of MUMBAI := FromViem "polygonMumbai"]> ∅))).

End ChainDefinitions.

(** ** Vocabulary for the statements about [approve] *)

(** [fees_resolved w p amount]: in world [w] the fee query for the
    platforms of proposal [p] answers with all three rates, and the
    calculator turns them and [rateAmount p] into [amount].  This is the
    required approval amount of the run. *)
Definition fees_resolved (w : World) (p : Proposal) (amount : Z) : Prop :=
  ∃ fees sp pp pr rest,
    graphql_get w
      (QueryProtocolAndPlatformsFees (service_platform_id p) (platform_id p))
      = Normal (Some (mkResponse (Some fees)))
    ∧ servicePlatform fees = Some sp
    ∧ proposalPlatform fees = Some pp
    ∧ protocols fees = pr :: rest
    ∧ calculateApprovalAmount (rateAmount p) (originServiceFeeRate sp)
        (originValidatedProposalFeeRate pp) (protocolEscrowFeeRate pr)
      = Normal amount.

(** The escrow-creation call of a run, with its payment value. *)
Definition createTransactionCall
    (serviceId metaEvidenceCid : string) (p : Proposal) (value : option Z)
    : Event :=
  EWriteContract "talentLayerEscrow" "createTransaction"
    (Escrow.createTransactionArgs serviceId (seller_id p) metaEvidenceCid
       (default "" (cid p)))
    value.

(** The read of the fee schedule for a proposal. *)
Definition feeQuery (p : Proposal) : Event :=
  EGraphQLGet
    (QueryProtocolAndPlatformsFees (service_platform_id p) (platform_id p)).

(** The payment values of the contract writes of a trace. *)
Definition payment_values (t : list Event) : list (option Z) :=
  omap (λ e, match e with
             | EWriteContract _ _ _ v => Some v
             | _ => None
             end) t.

(** Events that reach the chain: token reads and writes, receipt waits
    and contract writes. *)
Definition is_ledger_call (e : Event) : bool :=
  match e with
  | ECheckAllowance _ | EErc20Approve _ _ | EWaitForTransactionReceipt _
  | EWriteContract _ _ _ _ => true
  | _ => false
  end.

Definition is_createTransaction (e : Event) : bool :=
  match e with
  | EWriteContract contract functionName _ _ =>
      String.eqb contract "talentLayerEscrow"
      && String.eqb functionName "createTransaction"
  | _ => false
  end.

(** How often a kind of event occurs in a trace. *)
Definition occurrences (f : Event → bool) (t : list Event) : nat :=
  length (List.filter f t).

(** What [approve] makes of the ledger's answer to the creation call. *)
Definition creationOutcome (answer : completion string) (cid : string)
    : completion ClientTransactionResponse :=
  match answer with
  | Normal tx =>
      if truthy_string tx
      then Normal (mkClientTransactionResponse tx cid)
      else Throw (Error "Error creating Transaction")
  | Throw e => Throw e
  end.

(** The check behind the conversion of two-decimal percentages: the
    percentage [k/100] comes out as [k] basis points. *)
Definition two_decimals_exact (k : Z) : bool :=
  PrimFloat.Leibniz.eqb
    (Math_round
       (((number_of_Z k / 100) * number_of_Z FEE_RATE_DIVIDER) / 100)%float)
    (number_of_Z k).

Definition hundredths : list Z := map Z.of_nat (seq 0 (Z.to_nat 10001)).



(** ** Sample runs *)

(** A world built from the answers that matter to [approve]; every other
    collaborator call succeeds with a fixed hash. *)
Definition sample_world (proposal : option Proposal)
    (fees : option ProtocolAndPlatformsFees) (allowance : Z)
    (approval : completion string) (receiptStatus : string) : World :=
  {| proposal_getOne := λ _ _, Normal proposal;
     service_getOne := λ _ _, Normal None;
     graphql_get := λ _, Normal (Some (mkResponse fees));
     erc20_checkAllowance := λ _, Normal allowance;
     erc20_approve := λ _ _, approval;
     waitForTransactionReceipt := λ _, Normal (mkReceipt receiptStatus);
     writeContract := λ _ _ _ _, Normal "0xcreate" |}.

Definition sample_fees : ProtocolAndPlatformsFees :=
  {| servicePlatform := Some (mkServicePlatformFees 500);
     proposalPlatform := Some (mkProposalPlatformFees 200);
     protocols := [mkProtocolFees 300] |}.

Definition usdc_mumbai : string := "0xe6b8a5CF854791412c1f6EFC7CAf629f5Df1c747".

Definition sample_proposal (cid : option string) (token : string) : Proposal :=
  {| cid := cid;
     seller_id := "7";
     service_platform_id := "1";
     platform_id := "2";
     rateAmount := 1000000;
     rateToken_address := token |}.

Definition sample_escrow : Escrow.t := Escrow.mk 1 80001.

(** Identifiers for the sample runs: the ones these four chains have on
    the public networks.  They are an example of the parameters, not
    part of the model. *)
Definition sample_ids : NetworkIds :=
  {| AMOY_id := 80002; IEXEC_id := 134; POLYGON_id := 137; FUJI_id := 43113 |}.

(** A world for [release]/[reimburse]. *)
Definition service_world (service : option Service) : World :=
  {| proposal_getOne := λ _ _, Normal None;
     service_getOne := λ _ _, Normal service;
     graphql_get := λ _, Normal None;
     erc20_checkAllowance := λ _, Normal 0;
     erc20_approve := λ _ _, Normal "0xapprove";
     waitForTransactionReceipt := λ _, Normal (mkReceipt "success");
     writeContract := λ _ _ _ _, Normal "0xsettle" |}.

Definition sample_platform (chainId : Z) : Platform.t :=
  Platform.mk 1 None chainId.

(** A world in which every ledger-side answer is chosen. *)
Definition ledger_world (proposal : option Proposal)
    (fees : option ProtocolAndPlatformsFees) (allowance : completion Z)
    (approval : completion string) (receipt : completion TransactionReceipt)
    (creation : completion string) : World :=
  {| proposal_getOne := λ _ _, Normal proposal;
     service_getOne := λ _ _, Normal None;
     graphql_get := λ _, Normal (Some (mkResponse fees));
     erc20_checkAllowance := λ _, allowance;
     erc20_approve := λ _ _, approval;
     waitForTransactionReceipt := λ _, receipt;
     writeContract := λ _ _ _ _, creation |}.

Definition usdc_proposal : Proposal :=
  sample_proposal (Some "QmProposal") usdc_mumbai.

(** The readers that turn a missing answer into [null], each with the
    query it sends. *)
Inductive null_default_read : SubgraphQuery → JsC Json → Prop :=
  | read_getByService serviceId paymentType :
      null_default_read (QueryPaymentsByService serviceId paymentType)
        (Escrow.getByService serviceId paymentType)
  | read_platform_getOne id :
      null_default_read (QueryPlatformById id) (Platform.getOne id)
  | read_getById userId :
      null_default_read (QueryProfileById userId) (Profile.getById userId)
  | read_getTotalGains userId :
      null_default_read (QueryUserTotalGains userId)
        (Profile.getTotalGains userId)
  | read_getPayments userId numberPerPage offset startDate endDate :
      null_default_read
        (QueryPaymentsForUser userId numberPerPage offset startDate endDate)
        (Profile.getPayments userId numberPerPage offset startDate endDate)
  | read_getMintFees :
      null_default_read QueryMintFees Profile.getMintFees.

(** A client whose subgraph, content store and ledger each give one
    answer. *)
Definition sample_client (answer : completion Json) (cid tx : completion string)
    : Client :=
  {| ledger :=
       {| proposal_getOne := λ _ _, Normal None;
          service_getOne := λ _ _, Normal None;
          graphql_get := λ _, Normal None;
          erc20_checkAllowance := λ _, Normal 0;
          erc20_approve := λ _ _, Normal "0xapprove";
          waitForTransactionReceipt := λ _, Normal (mkReceipt "success");
          writeContract := λ _ _ _ _, tx |};
     subgraph_get := λ _, answer;
     ipfs_post := λ _, cid |}.

(** [{data: {<name>: v}}]. *)
Definition data_response (name : string) (v : Json) : Json :=
  JObject [("data", JObject [(name, v)])].

(** A [BigInt] for the sample runs, defined on the two fee texts they
    use; everything else is refused. *)
Definition sample_BigInt (v : Json) : completion Z :=
  match v with
  | JString "1000" => Normal 1000
  | JString "0" => Normal 0
  | _ => Throw (mkJsError "SyntaxError" "Cannot convert to a BigInt")
  end.

(** ** Proof support *)

Ltac js_unfold :=
  unfold mbind, mret, Js_mbind, Js_mret, Js_bind, Js_ret, call, lift, throw,
    try_catch, trace, outcome in *.

(** Case analysis on the next collaborator answer or test the run
    depends on. *)
Ltac js_step :=
  match goal with
  | |- context [match ?x with _ => _ end] =>
      lazymatch x with
      | context [match _ with _ => _ end] => fail
      | _ => destruct x eqn:?
      end
  | |- context [if ?b then _ else _] =>
      lazymatch b with
      | context [if _ then _ else _] => fail
      | _ => destruct b eqn:?
      end
  end.

(** * Properties *)

(** ** Approval amount calculator *)

Lemma feeComponent_floor (rateAmount feeRate divider : Z) :
  0 ≤ rateAmount → 0 ≤ feeRate → 0 ≤ divider →
  feeComponent rateAmount feeRate divider = rateAmount * feeRate / divider.
Proof.
  intros Ha Hr Hd. unfold feeComponent.
  destruct (Z.eq_dec divider 0) as [-> | Hne].
  - rewrite Z.div_0_r. destruct (rateAmount * feeRate); reflexivity.
  - apply Z.quot_div_nonneg; [apply Z.mul_nonneg_nonneg; lia | lia].
Qed.

Lemma feeComponent_mono (rateAmount r r' divider : Z) :
  0 ≤ rateAmount → 0 ≤ r → r ≤ r' → 0 ≤ divider →
  feeComponent rateAmount r divider ≤ feeComponent rateAmount r' divider.
Proof.
  intros Ha Hr Hle Hd.
  rewrite !feeComponent_floor by lia.
  destruct (Z.eq_dec divider 0) as [-> | Hne].
  - rewrite !Z.div_0_r. lia.
  - apply Z.div_le_mono; [lia | apply Z.mul_le_mono_nonneg_l; lia].
Qed.

Lemma computeApprovalAmount_nonneg (a r1 r2 r3 d : Z) :
  0 ≤ a → 0 ≤ r1 → 0 ≤ r2 → 0 ≤ r3 → 0 ≤ d →
  computeApprovalAmount a r1 r2 r3 d =
    Normal (a + feeComponent a r1 d + feeComponent a r2 d + feeComponent a r3 d).
Proof.
  intros. unfold computeApprovalAmount.
  replace (a <? 0) with false by (symmetry; apply Z.ltb_ge; lia).
  replace (r1 <? 0) with false by (symmetry; apply Z.ltb_ge; lia).
  replace (r2 <? 0) with false by (symmetry; apply Z.ltb_ge; lia).
  replace (r3 <? 0) with false by (symmetry; apply Z.ltb_ge; lia).
  replace (d <? 0) with false by (symmetry; apply Z.ltb_ge; lia).
  reflexivity.
Qed.

(** A negative rate amount or fee rate is rejected. *)
Lemma computeApprovalAmount_rejects_negative (a r1 r2 r3 d : Z) :
  a < 0 ∨ r1 < 0 ∨ r2 < 0 ∨ r3 < 0 →
  computeApprovalAmount a r1 r2 r3 d = Throw InvalidFeeRateError.
Proof.
  intros H. unfold computeApprovalAmount.
  destruct (Z.ltb_spec a 0); [reflexivity |].
  destruct (Z.ltb_spec r1 0); [reflexivity |].
  destruct (Z.ltb_spec r2 0); [reflexivity |].
  destruct (Z.ltb_spec r3 0); [reflexivity |].
  lia.
Qed.

(** C2. For non-negative [rateAmount] and fee rates [r1], [r2], [r3], each
    at most the divider, the calculator returns exactly
    [rateAmount + floor(rateAmount*r1/divider) + floor(rateAmount*r2/divider)
    + floor(rateAmount*r3/divider)], every component taken against the same
    base, and the result does not decrease when any one fee rate grows
    (within the same bound). *)
Theorem computeApprovalAmount_exact_monotone
    (rateAmount r1 r2 r3 divider : Z) :
  0 ≤ rateAmount →
  0 ≤ r1 ≤ divider → 0 ≤ r2 ≤ divider → 0 ≤ r3 ≤ divider →
  computeApprovalAmount rateAmount r1 r2 r3 divider =
    Normal (rateAmount + rateAmount * r1 / divider
            + rateAmount * r2 / divider + rateAmount * r3 / divider)
  ∧ (∀ r1', r1 ≤ r1' ≤ divider →
       approvalAmount_le
         (computeApprovalAmount rateAmount r1 r2 r3 divider)
         (computeApprovalAmount rateAmount r1' r2 r3 divider))
  ∧ (∀ r2', r2 ≤ r2' ≤ divider →
       approvalAmount_le
         (computeApprovalAmount rateAmount r1 r2 r3 divider)
         (computeApprovalAmount rateAmount r1 r2' r3 divider))
  ∧ (∀ r3', r3 ≤ r3' ≤ divider →
       approvalAmount_le
         (computeApprovalAmount rateAmount r1 r2 r3 divider)
         (computeApprovalAmount rateAmount r1 r2 r3' divider)).
Proof.
  intros Ha H1 H2 H3.
  split; [| repeat split].
  - rewrite computeApprovalAmount_nonneg by lia.
    rewrite !feeComponent_floor by lia. reflexivity.
  - intros r1' Hr. eexists _, _.
    rewrite !computeApprovalAmount_nonneg by lia.
    split; [reflexivity | split; [reflexivity |]].
    pose proof (feeComponent_mono rateAmount r1 r1' divider). lia.
  - intros r2' Hr. eexists _, _.
    rewrite !computeApprovalAmount_nonneg by lia.
    split; [reflexivity | split; [reflexivity |]].
    pose proof (feeComponent_mono rateAmount r2 r2' divider). lia.
  - intros r3' Hr. eexists _, _.
    rewrite !computeApprovalAmount_nonneg by lia.
    split; [reflexivity | split; [reflexivity |]].
    pose proof (feeComponent_mono rateAmount r3 r3' divider). lia.
Qed.

(** The worked example of the spec: 1_000_000 at 5%, 2% and 3%. *)
Lemma computeApprovalAmount_exact_monotone_witness :
  computeApprovalAmount 1000000 500 200 300 10000 = Normal 1100000.
Proof.
  refine (proj1 (computeApprovalAmount_exact_monotone
                   1000000 500 200 300 10000 _ _ _ _)); lia.
Defined.

(** ** Escrow: validation before any fee or ledger call *)

(** C6. When the fetched proposal lacks a content identifier, [approve]
    fails with the error "Proposal cid not found" and the only call that
    has left the client is the proposal read: the fee schedule resolver
    has not been called. *)
Theorem approve_missing_cid_fails_before_fees
    (this : Escrow.t) (serviceId proposalId metaEvidenceCid : string)
    (platformId : option Z) (w : World) (p : Proposal) :
  proposal_getOne w (or_number platformId (Escrow.platformID this)) proposalId
    = Normal (Some p) →
  truthy_opt_string (cid p) = false →
  let run := Escrow.approve this serviceId proposalId metaEvidenceCid platformId w in
  outcome run = Throw (Error "Proposal cid not found")
  ∧ trace run =
      [EProposalGetOne (or_number platformId (Escrow.platformID this)) proposalId]
  ∧ existsb is_fee_resolver_call (trace run) = false.
Proof.
  intros Hp Hcid run. subst run.
  unfold Escrow.approve. js_unfold.
  rewrite Hp. cbn. rewrite Hcid. cbn. auto.
Qed.

Lemma approve_missing_cid_fails_before_fees_witness :
  let run :=
    Escrow.approve sample_escrow "12" "12-7" "QmMeta" None
      (sample_world (Some (sample_proposal None usdc_mumbai))
         (Some sample_fees) 0 (Normal "0xapprove") "success") in
  outcome run = Throw (Error "Proposal cid not found")
  ∧ trace run = [EProposalGetOne 1 "12-7"]
  ∧ existsb is_fee_resolver_call (trace run) = false.
Proof.
  apply (approve_missing_cid_fails_before_fees sample_escrow "12" "12-7"
           "QmMeta" None _ (sample_proposal None usdc_mumbai));
    reflexivity.
Defined.

(** An empty content identifier is as good as a missing one. *)
Example approve_empty_cid :
  outcome
    (Escrow.approve sample_escrow "12" "12-7" "QmMeta" None
       (sample_world (Some (sample_proposal (Some "") usdc_mumbai))
          (Some sample_fees) 0 (Normal "0xapprove") "success"))
  = Throw (Error "Proposal cid not found").
Proof. reflexivity. Qed.

(** C7. When the target service has no on-chain transaction identifier
    (the service is absent, has no transaction, or the identifier is
    empty), [release] and [reimburse] fail with the error "service
    transaction not found" and submit no ledger write: the service read
    is the only call made. *)
Theorem release_reimburse_without_transaction
    (this : Escrow.t) (serviceId : string) (amount userId : Z)
    (platformId : option Z) (w : World) (service : option Service) :
  service_getOne w (or_number platformId (Escrow.platformID this)) serviceId
    = Normal service →
  truthy_opt_string (Escrow.transactionId_of service) = false →
  let read :=
    EServiceGetOne (or_number platformId (Escrow.platformID this)) serviceId in
  let failed : list Event * completion string :=
    ([read], Throw (Error "service transaction not found")) in
  Escrow.release this serviceId amount userId platformId w = failed
  ∧ Escrow.reimburse this serviceId amount userId platformId w = failed
  ∧ existsb is_ledger_write (trace failed) = false.
Proof.
  intros Hs Hid read failed. subst read failed.
  unfold Escrow.release, Escrow.reimburse. js_unfold.
  rewrite Hs. cbn. rewrite Hid. cbn. auto.
Qed.

Lemma release_reimburse_without_transaction_witness :
  let failed : list Event * completion string :=
    ([EServiceGetOne 1 "12"], Throw (Error "service transaction not found")) in
  Escrow.release sample_escrow "12" 500 7 None
    (service_world (Some (mkService None))) = failed
  ∧ Escrow.reimburse sample_escrow "12" 500 7 None
      (service_world (Some (mkService None))) = failed
  ∧ existsb is_ledger_write (trace failed) = false.
Proof.
  apply (release_reimburse_without_transaction sample_escrow "12" 500 7 None
           (service_world (Some (mkService None))) (Some (mkService None)));
    reflexivity.
Defined.

(** With a transaction identifier the ledger call is submitted. *)
Example release_with_transaction :
  Escrow.release sample_escrow "12" 500 7 None
    (service_world (Some (mkService (Some (mkTransaction "42")))))
  = ([EServiceGetOne 1 "12";
      EWriteContract "talentLayerEscrow" "release"
        [VNumber 7; VParseInt "42" None; VBigIntToString 500] None],
     Normal "0xsettle").
Proof. reflexivity. Qed.

Example reimburse_with_transaction :
  Escrow.reimburse sample_escrow "12" 500 7 None
    (service_world (Some (mkService (Some (mkTransaction "42")))))
  = ([EServiceGetOne 1 "12";
      EWriteContract "talentLayerEscrow" "reimburse"
        [VNumber 7; VParseInt "42" None; VBigIntToString 500] None],
     Normal "0xsettle").
Proof. reflexivity. Qed.

(** ** Escrow: the approval amount and the allowance step *)

Arguments calculateApprovalAmount : simpl never.

Lemma fees_resolved_run (w : World) (p : Proposal) (amount : Z) :
  fees_resolved w p amount →
  ∃ fees sp pp pr rest,
    Escrow.getProtocolAndPlatformsFees (service_platform_id p) (platform_id p) w
      = ([feeQuery p], Normal (Some fees))
    ∧ servicePlatform fees = Some sp
    ∧ proposalPlatform fees = Some pp
    ∧ protocols fees = pr :: rest
    ∧ calculateApprovalAmount (rateAmount p) (originServiceFeeRate sp)
        (originValidatedProposalFeeRate pp) (protocolEscrowFeeRate pr)
      = Normal amount.
Proof.
  intros (fees & sp & pp & pr & rest & Hq & Hsp & Hpp & Hpr & Ha).
  exists fees, sp, pp, pr, rest. repeat split; try assumption.
  unfold Escrow.getProtocolAndPlatformsFees, feeQuery. js_unfold.
  rewrite Hq. reflexivity.
Qed.

(** C4. Every ERC-20 approval [approve] submits is for the token of the
    fetched proposal and for exactly the required approval amount of the
    run: the amount the calculator returns for the proposal's rate amount
    and the three resolved fee rates. *)
Theorem approve_approval_amount_exact
    (this : Escrow.t) (serviceId proposalId metaEvidenceCid : string)
    (platformId : option Z) (w : World) (token : string) (submitted : Z) :
  In (EErc20Approve token submitted)
     (trace (Escrow.approve this serviceId proposalId metaEvidenceCid platformId w)) →
  ∃ p,
    proposal_getOne w (or_number platformId (Escrow.platformID this)) proposalId
      = Normal (Some p)
    ∧ token = rateToken_address p
    ∧ fees_resolved w p submitted.
Proof.
  unfold Escrow.approve, Escrow.getProtocolAndPlatformsFees, Escrow.requestApproval,
    fees_resolved.
  js_unfold.
  destruct (proposal_getOne w _ proposalId) as [[p|]|] eqn:Hp; cbn;
    [| intuition discriminate..].
  destruct (truthy_opt_string (cid p)); cbn; [| intuition discriminate].
  destruct (graphql_get w _) as [[[[fees|]]|]|] eqn:Hq; cbn;
    [| intuition discriminate..].
  destruct (servicePlatform fees) as [sp|] eqn:Hsp; cbn;
    [| intuition discriminate].
  destruct (proposalPlatform fees) as [pp|] eqn:Hpp; cbn;
    [| intuition discriminate].
  destruct (protocols fees) as [|pr rest] eqn:Hpr; cbn;
    [intuition discriminate |].
  destruct (calculateApprovalAmount _ _ _ _) as [amount|] eqn:Ha; cbn;
    [| intuition discriminate].
  intros Hin.
  assert (token = rateToken_address p ∧ submitted = amount) as [-> ->].
  { revert Hin. repeat (js_step; cbn); intuition congruence. }
  exists p. split; [reflexivity | split; [reflexivity |]].
  exists fees, sp, pp, pr, rest. auto.
Qed.

Lemma approve_approval_amount_exact_witness :
  ∃ p,
    Normal (Some (sample_proposal (Some "QmProposal") usdc_mumbai))
      = Normal (Some p)
    ∧ usdc_mumbai = rateToken_address p
    ∧ fees_resolved
        (sample_world (Some (sample_proposal (Some "QmProposal") usdc_mumbai))
           (Some sample_fees) 1000000 (Normal "0xapprove") "success")
        p 1100000.
Proof.
  apply (approve_approval_amount_exact sample_escrow "12" "12-7" "QmMeta" None
           (sample_world (Some (sample_proposal (Some "QmProposal") usdc_mumbai))
              (Some sample_fees) 1000000 (Normal "0xapprove") "success")
           usdc_mumbai 1100000).
  vm_compute. auto.
Defined.

(** The full run behind the witness: the allowance equals the bare rate
    amount, which is below the required 1_100_000. *)
Example approve_erc20_raises_allowance :
  Escrow.approve sample_escrow "12" "12-7" "QmMeta" None
    (sample_world (Some (sample_proposal (Some "QmProposal") usdc_mumbai))
       (Some sample_fees) 1000000 (Normal "0xapprove") "success")
  = ([EProposalGetOne 1 "12-7";
      EGraphQLGet (QueryProtocolAndPlatformsFees "1" "2");
      ECheckAllowance usdc_mumbai;
      EErc20Approve usdc_mumbai 1100000;
      EWaitForTransactionReceipt "0xapprove";
      EWriteContract "talentLayerEscrow" "createTransaction"
        [VParseInt "12" (Some 10); VParseInt "7" (Some 10);
         VString "QmMeta"; VString "QmProposal"] None],
     Normal (mkClientTransactionResponse "0xcreate" "QmProposal")).
Proof. reflexivity. Qed.

Section ApproveResolved.

Variables (this : Escrow.t) (serviceId proposalId metaEvidenceCid : string).
Variables (platformId : option Z) (w : World) (p : Proposal) (amount : Z).

Let platformID := or_number platformId (Escrow.platformID this).
Let run := Escrow.approve this serviceId proposalId metaEvidenceCid platformId w.

Hypothesis Hproposal :
  proposal_getOne w platformID proposalId = Normal (Some p).
Hypothesis Hcid : truthy_opt_string (cid p) = true.
Hypothesis Hfees : fees_resolved w p amount.

(** Drives the run through the proposal read, the fee query and the
    calculator, up to the test on the payment token. *)
Ltac approve_to_branch :=
  let fees := fresh "fees" in
  let Hq := fresh "Hq" in
  let Hsp := fresh "Hsp" in
  let Hpp := fresh "Hpp" in
  let Hpr := fresh "Hpr" in
  let Ha := fresh "Ha" in
  destruct (fees_resolved_run _ _ _ Hfees)
    as (fees & ? & ? & ? & ? & Hq & Hsp & Hpp & Hpr & Ha);
  subst run; unfold Escrow.approve, Escrow.requestApproval;
  fold platformID; js_unfold; cbn beta;
  rewrite Hproposal; cbn beta iota;
  rewrite Hcid; cbn [negb];
  rewrite Hq; cbn beta iota;
  rewrite Hsp, Hpp, Hpr; cbn beta iota;
  rewrite Ha; cbn beta iota.

(** C3. On the ERC-20 path, when the allowance read from the token is
    at least the required approval amount, the run goes from the
    allowance read straight to the escrow-creation call: no approval
    transaction is submitted. *)
Theorem approve_sufficient_allowance_no_approval (allowance : Z) :
  rateToken_address p ≠ RateToken_NATIVE →
  erc20_checkAllowance w (rateToken_address p) = Normal allowance →
  amount ≤ allowance →
  trace run =
    [EProposalGetOne platformID proposalId; feeQuery p;
     ECheckAllowance (rateToken_address p);
     createTransactionCall serviceId metaEvidenceCid p None]
  ∧ existsb is_erc20_approve (trace run) = false.
Proof.
  intros Htoken Hallowance Hle.
  apply String.eqb_neq in Htoken. apply Z.ltb_ge in Hle.
  assert (trace run =
    [EProposalGetOne platformID proposalId; feeQuery p;
     ECheckAllowance (rateToken_address p);
     createTransactionCall serviceId metaEvidenceCid p None]) as Ht.
  { approve_to_branch. rewrite Htoken, Hallowance. cbn beta iota.
    rewrite Hle.
    destruct (writeContract w _ _ _ _) as [tx|]; [destruct (truthy_string tx) |];
      reflexivity. }
  split; [exact Ht | rewrite Ht; reflexivity].
Qed.

(** C5 (as the code has it). On the ERC-20 path with an insufficient
    allowance, a submission that throws and a receipt whose status is
    not a success end the run with one and the same error, "Approval
    transaction failed with error": the error thrown for the failed
    receipt is raised inside the [try] block and replaced by its
    [catch].  In both cases no escrow-creation call follows. *)
Theorem approve_approval_failures_same_error (allowance : Z) :
  rateToken_address p ≠ RateToken_NATIVE →
  erc20_checkAllowance w (rateToken_address p) = Normal allowance →
  allowance < amount →
  let prefix :=
    [EProposalGetOne platformID proposalId; feeQuery p;
     ECheckAllowance (rateToken_address p);
     EErc20Approve (rateToken_address p) amount] in
  let failed : completion ClientTransactionResponse :=
    Throw (Error "Approval transaction failed with error") in
  (∀ e, erc20_approve w (rateToken_address p) amount = Throw e →
        run = (prefix, failed))
  ∧ (∀ hash receipt,
       erc20_approve w (rateToken_address p) amount = Normal hash →
       waitForTransactionReceipt w hash = Normal receipt →
       status receipt ≠ "success" →
       run = (app prefix [EWaitForTransactionReceipt hash], failed)).
Proof.
  intros Htoken Hallowance Hlt prefix failed.
  apply String.eqb_neq in Htoken. apply Z.ltb_lt in Hlt.
  split.
  - intros e He. approve_to_branch.
    rewrite Htoken, Hallowance. cbn beta iota.
    rewrite Hlt, He. reflexivity.
  - intros hash receipt Hhash Hreceipt Hstatus.
    apply String.eqb_neq in Hstatus. approve_to_branch.
    rewrite Htoken, Hallowance. cbn beta iota.
    rewrite Hlt, Hhash. cbn beta iota.
    rewrite Hreceipt. cbn beta iota.
    rewrite Hstatus. reflexivity.
Qed.

End ApproveResolved.

Lemma sample_fees_resolved (proposal : option Proposal) (allowance : Z)
    (approval : completion string) (receiptStatus : string)
    (cid : option string) (token : string) :
  fees_resolved
    (sample_world proposal (Some sample_fees) allowance approval receiptStatus)
    (sample_proposal cid token) 1100000.
Proof.
  exists sample_fees, (mkServicePlatformFees 500), (mkProposalPlatformFees 200),
    (mkProtocolFees 300), [].
  repeat split; reflexivity.
Defined.

Lemma approve_sufficient_allowance_no_approval_witness :
  let run :=
    Escrow.approve sample_escrow "12" "12-7" "QmMeta" None
      (sample_world (Some (sample_proposal (Some "QmProposal") usdc_mumbai))
         (Some sample_fees) 1100000 (Normal "0xapprove") "success") in
  trace run =
    [EProposalGetOne 1 "12-7";
     EGraphQLGet (QueryProtocolAndPlatformsFees "1" "2");
     ECheckAllowance usdc_mumbai;
     EWriteContract "talentLayerEscrow" "createTransaction"
       [VParseInt "12" (Some 10); VParseInt "7" (Some 10);
        VString "QmMeta"; VString "QmProposal"] None]
  ∧ existsb is_erc20_approve (trace run) = false.
Proof.
  apply (approve_sufficient_allowance_no_approval sample_escrow "12" "12-7"
           "QmMeta" None
           (sample_world (Some (sample_proposal (Some "QmProposal") usdc_mumbai))
              (Some sample_fees) 1100000 (Normal "0xapprove") "success")
           (sample_proposal (Some "QmProposal") usdc_mumbai) 1100000
           eq_refl eq_refl (sample_fees_resolved _ _ _ _ _ _) 1100000).
  - discriminate.
  - reflexivity.
  - lia.
Defined.

(** The two failing inputs: a submission that throws, and a submission
    that is mined with a receipt whose status is "reverted". *)
Lemma approve_approval_failures_same_error_witness :
  Escrow.approve sample_escrow "12" "12-7" "QmMeta" None
    (sample_world (Some (sample_proposal (Some "QmProposal") usdc_mumbai))
       (Some sample_fees) 0 (Throw (Error "user rejected the request")) "success")
  = ([EProposalGetOne 1 "12-7";
      EGraphQLGet (QueryProtocolAndPlatformsFees "1" "2");
      ECheckAllowance usdc_mumbai;
      EErc20Approve usdc_mumbai 1100000],
     Throw (Error "Approval transaction failed with error"))
  ∧ Escrow.approve sample_escrow "12" "12-7" "QmMeta" None
      (sample_world (Some (sample_proposal (Some "QmProposal") usdc_mumbai))
         (Some sample_fees) 0 (Normal "0xapprove") "reverted")
    = ([EProposalGetOne 1 "12-7";
        EGraphQLGet (QueryProtocolAndPlatformsFees "1" "2");
        ECheckAllowance usdc_mumbai;
        EErc20Approve usdc_mumbai 1100000;
        EWaitForTransactionReceipt "0xapprove"],
       Throw (Error "Approval transaction failed with error")).
Proof.
  split.
  - refine (proj1 (approve_approval_failures_same_error sample_escrow "12"
                     "12-7" "QmMeta" None
                     (sample_world
                        (Some (sample_proposal (Some "QmProposal") usdc_mumbai))
                        (Some sample_fees) 0
                        (Throw (Error "user rejected the request")) "success")
                     (sample_proposal (Some "QmProposal") usdc_mumbai) 1100000
                     eq_refl eq_refl (sample_fees_resolved _ _ _ _ _ _)
                     0 _ eq_refl _)
                  (Error "user rejected the request") eq_refl);
      [discriminate | lia].
  - refine (proj2 (approve_approval_failures_same_error sample_escrow "12"
                     "12-7" "QmMeta" None
                     (sample_world
                        (Some (sample_proposal (Some "QmProposal") usdc_mumbai))
                        (Some sample_fees) 0 (Normal "0xapprove") "reverted")
                     (sample_proposal (Some "QmProposal") usdc_mumbai) 1100000
                     eq_refl eq_refl (sample_fees_resolved _ _ _ _ _ _)
                     0 _ eq_refl _)
                  "0xapprove" (mkReceipt "reverted") eq_refl eq_refl _);
      [discriminate | lia | discriminate].
Defined.

(** ** Escrow: the native-currency path *)

Lemma fees_resolved_functional (w : World) (p : Proposal) (a a' : Z) :
  fees_resolved w p a → fees_resolved w p a' → a = a'.
Proof.
  intros (fees & sp & pp & pr & rest & Hq & Hsp & Hpp & Hpr & Ha)
         (fees' & sp' & pp' & pr' & rest' & Hq' & Hsp' & Hpp' & Hpr' & Ha').
  rewrite Hq in Hq'. injection Hq' as <-.
  rewrite Hsp in Hsp'. injection Hsp' as <-.
  rewrite Hpp in Hpp'. injection Hpp' as <-.
  rewrite Hpr in Hpr'. injection Hpr' as <- <-.
  rewrite Ha in Ha'. injection Ha' as <-. reflexivity.
Qed.

(** The two shapes of a run on the native path: the fees resolve and the
    creation call carries the computed amount, or they do not and the
    run stops after the fee query. *)
Lemma approve_native_shape
    (this : Escrow.t) (serviceId proposalId metaEvidenceCid : string)
    (platformId : option Z) (w : World) (p : Proposal) :
  proposal_getOne w (or_number platformId (Escrow.platformID this)) proposalId
    = Normal (Some p) →
  truthy_opt_string (cid p) = true →
  rateToken_address p = RateToken_NATIVE →
  let run := Escrow.approve this serviceId proposalId metaEvidenceCid platformId w in
  let read :=
    EProposalGetOne (or_number platformId (Escrow.platformID this)) proposalId in
  (∃ amount, fees_resolved w p amount
     ∧ trace run =
         [read; feeQuery p;
          createTransactionCall serviceId metaEvidenceCid p (Some amount)])
  ∨ ((∀ amount, ¬ fees_resolved w p amount)
     ∧ trace run = [read; feeQuery p]).
Proof.
  intros Hp Hcid Hnative run read. subst run read.
  apply String.eqb_eq in Hnative.
  unfold Escrow.approve, Escrow.getProtocolAndPlatformsFees, feeQuery,
    createTransactionCall.
  js_unfold. cbn beta. rewrite Hp. cbn beta iota. rewrite Hcid. cbn [negb].
  destruct (graphql_get w _) as [[[[fees|]]|]|] eqn:Hq; cbn;
    [| right; (split; [intros a (? & ? & ? & ? & ? & Hq' & _); congruence
                      | reflexivity])..].
  destruct (servicePlatform fees) as [sp|] eqn:Hsp; cbn;
    [| right; split; [| reflexivity];
       intros a (? & ? & ? & ? & ? & Hq' & Hsp' & _); congruence].
  destruct (proposalPlatform fees) as [pp|] eqn:Hpp; cbn;
    [| right; split; [| reflexivity];
       intros a (? & ? & ? & ? & ? & Hq' & _ & Hpp' & _); congruence].
  destruct (protocols fees) as [|pr rest] eqn:Hpr; cbn;
    [right; split; [| reflexivity];
     intros a (? & ? & ? & ? & ? & Hq' & _ & _ & Hpr' & _); congruence |].
  destruct (calculateApprovalAmount _ _ _ _) as [amount|] eqn:Ha; cbn.
  - left. exists amount. split.
    + exists fees, sp, pp, pr, rest. auto.
    + rewrite Hnative.
      destruct (writeContract w _ _ _ _) as [tx|]; [destruct (truthy_string tx) |];
        reflexivity.
  - right. split; [| reflexivity].
    intros a (fees' & sp' & pp' & pr' & rest' & Hq' & Hsp' & Hpp' & Hpr' & Ha').
    rewrite Hq in Hq'. injection Hq' as <-.
    rewrite Hsp in Hsp'. injection Hsp' as <-.
    rewrite Hpp in Hpp'. injection Hpp' as <-.
    rewrite Hpr in Hpr'. injection Hpr' as <- <-.
    congruence.
Qed.

(** C1 (as the code has it). For a proposal whose rate token is the
    native-currency sentinel, [approve] does call the fee schedule
    resolver (the fee query precedes the branch on the token) and never
    reaches the token allowance coordinator; when the fees resolve, the
    run is the proposal read, the fee query and the escrow-creation call,
    whose payment value is the calculator's approval amount; and no
    contract write of the run carries any other value. *)
Theorem approve_native_direct_create
    (this : Escrow.t) (serviceId proposalId metaEvidenceCid : string)
    (platformId : option Z) (w : World) (p : Proposal) :
  proposal_getOne w (or_number platformId (Escrow.platformID this)) proposalId
    = Normal (Some p) →
  truthy_opt_string (cid p) = true →
  rateToken_address p = RateToken_NATIVE →
  let run := Escrow.approve this serviceId proposalId metaEvidenceCid platformId w in
  In (feeQuery p) (trace run)
  ∧ existsb is_allowance_call (trace run) = false
  ∧ (∀ amount, fees_resolved w p amount →
       trace run =
         [EProposalGetOne (or_number platformId (Escrow.platformID this)) proposalId;
          feeQuery p;
          createTransactionCall serviceId metaEvidenceCid p (Some amount)])
  ∧ (∀ value, In value (payment_values (trace run)) →
       ∃ amount, fees_resolved w p amount ∧ value = Some amount).
Proof.
  intros Hp Hcid Hnative run.
  destruct (approve_native_shape this serviceId proposalId metaEvidenceCid
              platformId w p Hp Hcid Hnative)
    as [(amount & Hres & Ht) | (Hnone & Ht)];
    fold run in Ht; rewrite Ht.
  - split; [right; left; reflexivity |].
    split; [reflexivity |].
    split.
    + intros amount' Hres'.
      rewrite (fees_resolved_functional w p amount' amount Hres' Hres).
      reflexivity.
    + intros value [<- | []]. exists amount. split; [exact Hres | reflexivity].
  - split; [right; left; reflexivity |].
    split; [reflexivity |].
    split.
    + intros amount Hres. destruct (Hnone amount Hres).
    + intros value [].
Qed.

Lemma approve_native_direct_create_witness :
  let run :=
    Escrow.approve sample_escrow "12" "12-7" "QmMeta" None
      (sample_world (Some (sample_proposal (Some "QmProposal") RateToken_NATIVE))
         (Some sample_fees) 0 (Normal "0xapprove") "success") in
  trace run =
    [EProposalGetOne 1 "12-7";
     EGraphQLGet (QueryProtocolAndPlatformsFees "1" "2");
     EWriteContract "talentLayerEscrow" "createTransaction"
       [VParseInt "12" (Some 10); VParseInt "7" (Some 10);
        VString "QmMeta"; VString "QmProposal"] (Some 1100000)].
Proof.
  refine (proj1 (proj2 (proj2
            (approve_native_direct_create sample_escrow "12" "12-7" "QmMeta"
               None
               (sample_world
                  (Some (sample_proposal (Some "QmProposal") RateToken_NATIVE))
                  (Some sample_fees) 0 (Normal "0xapprove") "success")
               (sample_proposal (Some "QmProposal") RateToken_NATIVE)
               eq_refl eq_refl eq_refl)))
            1100000 (sample_fees_resolved _ _ _ _ _ _)).
Defined.

(** C1 as stated fails: on a native-currency proposal of 1_000_000 with
    fee rates 500, 200 and 300, the fee schedule resolver is called and
    the payment value of the escrow-creation call is 1_100_000, not the
    proposal's rate amount. *)
Lemma approve_native_pays_fees_counterexample :
  let p := sample_proposal (Some "QmProposal") RateToken_NATIVE in
  let run :=
    Escrow.approve sample_escrow "12" "12-7" "QmMeta" None
      (sample_world (Some p) (Some sample_fees) 0 (Normal "0xapprove") "success") in
  rateToken_address p = RateToken_NATIVE
  ∧ existsb is_fee_resolver_call (trace run) = true
  ∧ payment_values (trace run) = [Some 1100000]
  ∧ payment_values (trace run) ≠ [Some (rateAmount p)].
Proof.
  cbv zeta. repeat split; try reflexivity. vm_compute. discriminate.
Qed.

(** ** The static table, whatever the undeclared identifiers are *)

Lemma getChainConfig_outside {ids : NetworkIds} (z : Z) :
  (∀ n : NetworkEnum, z ≠ networkId_of n) → getChainConfig z = None.
Proof.
  intros Hz. unfold getChainConfig, chains.
  rewrite !lookup_insert_ne; [apply lookup_empty | ..];
    intros Heq; symmetry in Heq;
    first [ exact (Hz AMOY Heq) | exact (Hz MUMBAI Heq) | exact (Hz IEXEC Heq)
          | exact (Hz POLYGON Heq) | exact (Hz FUJI Heq) | exact (Hz LOCAL Heq) ].
Qed.

(** The lookup returns one of the five configuration objects. *)
Lemma getChainConfig_cases {ids : NetworkIds} (z : Z) (c : Config) :
  getChainConfig z = Some c →
  c = amoy ∨ c = mumbai ∨ c = iexec ∨ c = polygon ∨ c = fuji.
Proof.
  unfold getChainConfig, chains. intros Hc.
  repeat (rewrite lookup_insert in Hc; case_decide;
          [injection Hc as <-; tauto |]).
  rewrite lookup_empty in Hc. discriminate Hc.
Qed.

Lemma getChainConfig_member {ids : NetworkIds} (n : NetworkEnum) :
  is_Some (getChainConfig (networkId_of n)).
Proof.
  unfold getChainConfig, chains.
  destruct n; repeat (rewrite lookup_insert; case_decide; [eauto |]);
    congruence.
Qed.

Lemma getChainConfig_local {ids : NetworkIds} :
  getChainConfig 1337 = Some mumbai.
Proof. unfold getChainConfig, chains. apply lookup_insert_eq. Qed.

(** Different values, spelled out. *)
Lemma distinct_ids_ne {ids : NetworkIds} (n n' : NetworkEnum) :
  distinct_ids → n ≠ n' → networkId_of n ≠ networkId_of n'.
Proof.
  unfold distinct_ids, members. cbn [map]. intros Hnd Hne.
  repeat (apply NoDup_cons in Hnd as [? Hnd]).
  repeat match goal with
         | H : _ ∉ _ :: _ |- _ =>
             apply not_elem_of_cons in H; destruct H as [? H]
         end.
  destruct n, n'; try (destruct Hne; reflexivity); congruence.
Qed.

(** With different values every member finds its own entry. *)
Lemma getChainConfig_own {ids : NetworkIds} (n : NetworkEnum) :
  distinct_ids →
  getChainConfig (networkId_of n) =
    Some match n with
         | AMOY => amoy | MUMBAI | LOCAL => mumbai | IEXEC => iexec
         | POLYGON => polygon | FUJI => fuji
         end.
Proof.
  intros Hd. unfold getChainConfig, chains.
  destruct n;
    repeat first
      [ rewrite lookup_insert_eq; reflexivity
      | rewrite lookup_insert_ne;
        [| apply distinct_ids_ne; [exact Hd | discriminate]] ].
Qed.

(** ** Arbitrator policy *)

Lemma toLowerCase_idempotent (s : string) :
  toLowerCase (toLowerCase s) = toLowerCase s.
Proof.
  induction s as [|c s IH]; [reflexivity |].
  cbn. rewrite IH. f_equal.
  destruct c as [[] [] [] [] [] [] [] []]; reflexivity.
Qed.




(** Every configuration of the static table has an arbitrator contract
    with an ASCII address, so the allow-list is defined wherever the
    lookup succeeds. *)
Lemma static_networks_have_arbitrator {ids : NetworkIds} (z : Z) (c : Config) :
  getChainConfig z = Some c →
  ∃ contract,
    contracts c !! "talentLayerArbitrator" = Some contract
    ∧ is_ascii_string (contract_address contract) = true.
Proof.
  intros Hc.
  destruct (getChainConfig_cases z c Hc) as [-> | [-> | [-> | [-> | ->]]]];
    eexists; split; vm_compute; reflexivity.
Qed.

(** A custom configuration takes precedence over the static table. *)
Lemma chainConfig_of_custom {ids : NetworkIds}
    (platformID chainId : Z) (custom : Platform.CustomConfig) :
  Platform.chainConfig_of (Platform.mk platformID (Some custom) chainId) chainId
  = Some (Platform.contractConfig custom).
Proof. reflexivity. Qed.

(** ** Chain configuration lookup *)

(** C9 (as the code has it). The lookup is total on the supported
    network identifiers: the value of each of the six members of
    [NetworkEnum] has a configuration, and [LOCAL] (1337) is bound to the
    Mumbai one; where the six values are different, every other member
    finds the configuration that carries its own identifier.  For every
    identifier that is the value of no member the lookup returns
    [undefined]; it raises nothing.  This holds whatever the values of
    the four members are that the sources do not declare. *)
Theorem getChainConfig_supported_or_undefined {ids : NetworkIds} :
  (∀ n : NetworkEnum, is_Some (getChainConfig (networkId_of n)))
  ∧ getChainConfig (networkId_of LOCAL) = Some mumbai
  ∧ (distinct_ids →
     ∀ n c, getChainConfig (networkId_of n) = Some c →
            n ≠ LOCAL → networkId c = networkId_of n)
  ∧ (∀ z : Z, (∀ n : NetworkEnum, z ≠ networkId_of n) → getChainConfig z = None).
Proof.
  split; [exact getChainConfig_member |].
  split; [exact getChainConfig_local |].
  split; [| exact getChainConfig_outside].
  intros Hd n c Hc Hn.
  rewrite (getChainConfig_own n Hd) in Hc. injection Hc as <-.
  destruct n; try reflexivity. destruct Hn. reflexivity.
Qed.

Lemma getChainConfig_supported_or_undefined_witness :
  getChainConfig (ids := sample_ids) 5 = None.
Proof.
  apply (proj2 (proj2 (proj2
           (getChainConfig_supported_or_undefined (ids := sample_ids)))) 5).
  intros n. destruct n; discriminate.
Defined.

(** C9 as stated fails, whatever the undeclared identifiers are: 0 is
    the value of no member, and the lookup returns [undefined] for it;
    the failure only shows later, as the [TypeError] of whoever reads a
    field of the result.  The same happens at 1 (Ethereum mainnet)
    unless one of the four undeclared members has that value. *)
Lemma getChainConfig_unsupported_counterexample :
  (∀ (ids : NetworkIds) (n : NetworkEnum), networkId_of n ≠ 0)
  ∧ (∀ ids : NetworkIds, getChainConfig 0 = None)
  ∧ (∀ ids : NetworkIds,
       getGraphQLConfig 0 =
         Throw (TypeError "Cannot read properties of undefined (reading 'subgraphUrl')"))
  ∧ (∀ ids : NetworkIds,
       (∀ n : NetworkEnum, networkId_of n ≠ 1) → getChainConfig 1 = None).
Proof.
  assert (∀ (ids : NetworkIds) (n : NetworkEnum), 0 ≠ networkId_of n) as H0
    by (intros ids n; destruct n; discriminate).
  split; [intros ids n Heq; exact (H0 ids n (eq_sym Heq)) |].
  split; [intros ids; apply getChainConfig_outside, H0 |].
  split.
  - intros ids. unfold getGraphQLConfig.
    rewrite (getChainConfig_outside 0 (H0 ids)). reflexivity.
  - intros ids H1. apply getChainConfig_outside.
    intros n Heq. exact (H1 n (eq_sym Heq)).
Qed.

(** ** Fee-rate conversion *)

(** [nearest_integer num e] is the integer [k] with
    [k - 1/2 ≤ num * 2^e < k + 1/2]: the nearest integer, ties going up. *)
Lemma nearest_integer_spec (num e : Z) :
  e < 0 →
  let k := nearest_integer num e in
  (2 * k - 1) * 2 ^ (- e) ≤ 2 * num < (2 * k + 1) * 2 ^ (- e).
Proof.
  intros He k. subst k. unfold nearest_integer.
  replace (1 - e) with (Z.succ (- e)) by lia.
  rewrite Z.pow_succ_r by lia.
  assert (0 < 2 ^ (- e)) as Hd by (apply Z.pow_pos_nonneg; lia).
  set (d := 2 ^ (- e)) in *.
  pose proof (Z.div_mod (2 * num + d) (2 * d) ltac:(lia)) as Hdm.
  pose proof (Z.mod_pos_bound (2 * num + d) (2 * d) ltac:(lia)) as Hr.
  set (q := (2 * num + d) / (2 * d)) in *.
  nia.
Qed.

(** On a number with a fractional part, [Math_round] is that integer. *)
Lemma Math_round_fractional (x : float) (s : bool) (m : positive) (e : Z) :
  Prim2SF x = S754_finite s m e →
  e < 0 →
  let k := nearest_integer (if s then Z.neg m else Z.pos m) e in
  Math_round x =
    (if k =? 0 then (if s then PrimFloat.neg_zero else PrimFloat.zero)
     else number_of_Z k).
Proof.
  intros Hx He k. unfold Math_round. rewrite Hx.
  replace (0 <=? e) with false by (symmetry; apply Z.leb_gt; exact He).
  reflexivity.
Qed.

(** [Math_round] meets the language definition on every number. *)
Lemma Math_round_rounds_half_up (x : float) : rounds_half_up x (Math_round x).
Proof.
  unfold rounds_half_up.
  destruct (Prim2SF x) as [s | s | | s m e] eqn:Hx;
    try (unfold Math_round; rewrite Hx; reflexivity).
  destruct (0 <=? e) eqn:He.
  - unfold Math_round. rewrite Hx, He. reflexivity.
  - apply Z.leb_gt in He.
    exists (nearest_integer (if s then Z.neg m else Z.pos m) e).
    split.
    + apply (nearest_integer_spec _ e He).
    + apply (Math_round_fractional x s m e Hx He).
Qed.

(** The language definition leaves no choice: it has one result. *)
Lemma rounds_half_up_unique (x r r' : float) :
  rounds_half_up x r → rounds_half_up x r' → r = r'.
Proof.
  unfold rounds_half_up.
  destruct (Prim2SF x) as [s | s | | s m e]; try congruence.
  destruct (0 <=? e) eqn:He; [congruence |].
  apply Z.leb_gt in He.
  intros (k & Hk & ->) (k' & Hk' & ->).
  assert (0 < 2 ^ (- e)) as Hd by (apply Z.pow_pos_nonneg; lia).
  assert (k = k') as -> by nia.
  reflexivity.
Qed.

(** C10. Both fee-rate updates submit, as the second argument of their
    one contract write, the percentage turned into basis points,
    [value * 10000 / 100] in floating point, and rounded to the nearest
    integer, the upper one on a tie ([rounds_half_up], which has a single
    result): the rate is not truncated.  At 0.125 % the nearest integer
    of 12.5 is 13, where truncation gives 12. *)
Theorem updateFeeRate_submits_rounded_rate
    (this : Platform.t) (value : float) (platformId : option Z) (w : World) :
  (∃ rate,
     rounds_half_up ((value * 10000) / 100)%float rate
     ∧ (∀ rate', rounds_half_up ((value * 10000) / 100)%float rate' →
                 rate' = rate)
     ∧ let args :=
         [VNumber (or_number platformId (Platform.platformID this));
          VFloat rate] in
       Platform.updateOriginServiceFeeRate this value platformId w =
         ([EWriteContract "talentLayerPlatformId" "updateOriginServiceFeeRate"
             args None],
          writeContract w "talentLayerPlatformId" "updateOriginServiceFeeRate"
            args None)
       ∧ Platform.updateOriginValidatedProposalFeeRate this value platformId w =
           ([EWriteContract "talentLayerPlatformId"
               "updateOriginValidatedProposalFeeRate" args None],
            writeContract w "talentLayerPlatformId"
              "updateOriginValidatedProposalFeeRate" args None))
  ∧ rounds_half_up ((0.125 * 10000) / 100)%float 13%float
  ∧ Math_trunc ((0.125 * 10000) / 100)%float = 12%float.
Proof.
  assert (number_of_Z FEE_RATE_DIVIDER = 10000%float) as Hdiv by reflexivity.
  split; [| split].
  - exists (Math_round ((value * 10000) / 100)%float).
    split; [apply Math_round_rounds_half_up |].
    split.
    + intros rate' Hr.
      exact (rounds_half_up_unique _ _ _ Hr (Math_round_rounds_half_up _)).
    + cbv zeta.
      unfold Platform.updateOriginServiceFeeRate,
        Platform.updateOriginValidatedProposalFeeRate, call.
      rewrite Hdiv. split; reflexivity.
  - replace 13%float with (Math_round ((0.125 * 10000) / 100)%float)
      by (vm_compute; reflexivity).
    apply Math_round_rounds_half_up.
  - vm_compute. reflexivity.
Qed.

(** Whole percentages from 0 to 100 become exactly [100 * v] basis
    points. *)
Lemma whole_percentages_exact :
  forallb
    (λ v : Z,
       PrimFloat.eqb
         (Math_round ((number_of_Z v * number_of_Z FEE_RATE_DIVIDER) / 100)%float)
         (number_of_Z (100 * v)))
    (map Z.of_nat (seq 0 101)) = true.
Proof. vm_compute. reflexivity. Qed.

(** Ties go up, also below zero; a zero result keeps the sign. *)
Example Math_round_ties :
  Math_round 2.5%float = 3%float
  ∧ Math_round (-2.5)%float = (-2)%float
  ∧ Math_round 0.5%float = 1%float
  ∧ Math_round (-0.5)%float = (-0)%float
  ∧ Math_round 0.25%float = 0%float.
Proof. repeat split; vm_compute; reflexivity. Qed.

(** * Further properties of the escrow driver *)

(** ** What [approve] does before it reaches the chain *)

(** Runs [approve] through every answer of the collaborators. *)
Ltac approve_cases :=
  unfold Escrow.approve, Escrow.getProtocolAndPlatformsFees,
    Escrow.requestApproval;
  js_unfold; cbn beta;
  repeat (js_step; cbn).

(** X1. [approve] reaches the chain (allowance read, approval, receipt
    wait or contract write) only once the proposal is fetched, carries a
    content identifier, and all three fee rates are resolved into an
    approval amount. *)
Theorem approve_ledger_only_after_resolution
    (this : Escrow.t) (serviceId proposalId metaEvidenceCid : string)
    (platformId : option Z) (w : World) (e : Event) :
  In e (trace (Escrow.approve this serviceId proposalId metaEvidenceCid platformId w)) →
  is_ledger_call e = true →
  ∃ p amount,
    proposal_getOne w (or_number platformId (Escrow.platformID this)) proposalId
      = Normal (Some p)
    ∧ truthy_opt_string (cid p) = true
    ∧ fees_resolved w p amount.
Proof.
  unfold Escrow.approve, Escrow.getProtocolAndPlatformsFees, fees_resolved.
  js_unfold. cbn beta.
  destruct (proposal_getOne w _ proposalId) as [[p|]|] eqn:Hp; cbn;
    [| intros [<- | []]; discriminate..].
  destruct (truthy_opt_string (cid p)) eqn:Hcid; cbn;
    [| intros [<- | []]; discriminate].
  destruct (graphql_get w _) as [[[[fees|]]|]|] eqn:Hq; cbn;
    [| intros [<- | [<- | []]]; discriminate..].
  destruct (servicePlatform fees) as [sp|] eqn:Hsp; cbn;
    [| intros [<- | [<- | []]]; discriminate].
  destruct (proposalPlatform fees) as [pp|] eqn:Hpp; cbn;
    [| intros [<- | [<- | []]]; discriminate].
  destruct (protocols fees) as [|pr rest] eqn:Hpr; cbn;
    [intros [<- | [<- | []]]; discriminate |].
  destruct (calculateApprovalAmount _ _ _ _) as [amount|] eqn:Ha; cbn;
    [| intros [<- | [<- | []]]; discriminate].
  intros _ _. exists p, amount. split; [reflexivity | split; [exact Hcid |]].
  exists fees, sp, pp, pr, rest. auto.
Qed.

Lemma approve_ledger_only_after_resolution_witness :
  ∃ p amount,
    Normal (Some (sample_proposal (Some "QmProposal") usdc_mumbai))
      = Normal (Some p)
    ∧ truthy_opt_string (cid p) = true
    ∧ fees_resolved
        (sample_world (Some (sample_proposal (Some "QmProposal") usdc_mumbai))
           (Some sample_fees) 0 (Normal "0xapprove") "success")
        p amount.
Proof.
  apply (approve_ledger_only_after_resolution sample_escrow "12" "12-7"
           "QmMeta" None
           (sample_world (Some (sample_proposal (Some "QmProposal") usdc_mumbai))
              (Some sample_fees) 0 (Normal "0xapprove") "success")
           (ECheckAllowance usdc_mumbai)).
  - vm_compute. auto.
  - reflexivity.
Defined.

(** X2. When the proposal read answers [null], [approve] fails with
    "Proposal not found" and nothing but that read has left the client. *)
Theorem approve_proposal_not_found
    (this : Escrow.t) (serviceId proposalId metaEvidenceCid : string)
    (platformId : option Z) (w : World) :
  proposal_getOne w (or_number platformId (Escrow.platformID this)) proposalId
    = Normal None →
  Escrow.approve this serviceId proposalId metaEvidenceCid platformId w =
    ([EProposalGetOne (or_number platformId (Escrow.platformID this)) proposalId],
     Throw (Error "Proposal not found")).
Proof.
  intros Hp. unfold Escrow.approve. js_unfold. cbn beta. rewrite Hp. reflexivity.
Qed.

Lemma approve_proposal_not_found_witness :
  Escrow.approve sample_escrow "12" "12-7" "QmMeta" (Some 3)
    (sample_world None (Some sample_fees) 0 (Normal "0xapprove") "success")
  = ([EProposalGetOne 3 "12-7"], Throw (Error "Proposal not found")).
Proof.
  apply (approve_proposal_not_found sample_escrow "12" "12-7" "QmMeta" (Some 3)
           (sample_world None (Some sample_fees) 0 (Normal "0xapprove") "success")).
  reflexivity.
Defined.

(** X3. When the subgraph answers the fee query with no response, or
    with a response that has no [data], [approve] fails with "Unable to
    fetch fees" after the proposal read and the fee query; the chain is
    not reached. *)
Theorem approve_fees_unavailable
    (this : Escrow.t) (serviceId proposalId metaEvidenceCid : string)
    (platformId : option Z) (w : World) (p : Proposal)
    (response : option GraphQLResponse) :
  proposal_getOne w (or_number platformId (Escrow.platformID this)) proposalId
    = Normal (Some p) →
  truthy_opt_string (cid p) = true →
  graphql_get w
    (QueryProtocolAndPlatformsFees (service_platform_id p) (platform_id p))
    = Normal response →
  response ≫= data = None →
  Escrow.approve this serviceId proposalId metaEvidenceCid platformId w =
    ([EProposalGetOne (or_number platformId (Escrow.platformID this)) proposalId;
      feeQuery p],
     Throw (Error "Unable to fetch fees")).
Proof.
  intros Hp Hcid Hq Hdata.
  unfold Escrow.approve, Escrow.getProtocolAndPlatformsFees, feeQuery.
  js_unfold. cbn beta. rewrite Hp. cbn beta iota. rewrite Hcid. cbn [negb].
  rewrite Hq. cbn beta iota. rewrite Hdata. reflexivity.
Qed.

Lemma approve_fees_unavailable_witness :
  Escrow.approve sample_escrow "12" "12-7" "QmMeta" None
    (sample_world (Some (sample_proposal (Some "QmProposal") usdc_mumbai))
       None 0 (Normal "0xapprove") "success")
  = ([EProposalGetOne 1 "12-7";
      EGraphQLGet (QueryProtocolAndPlatformsFees "1" "2")],
     Throw (Error "Unable to fetch fees")).
Proof.
  apply (approve_fees_unavailable sample_escrow "12" "12-7" "QmMeta" None
           (sample_world (Some (sample_proposal (Some "QmProposal") usdc_mumbai))
              None 0 (Normal "0xapprove") "success")
           (sample_proposal (Some "QmProposal") usdc_mumbai)
           (Some (mkResponse None)));
    reflexivity.
Defined.

(** X4. When the fee data arrives but lacks a record (the service
    platform, the proposal platform, or the first protocol entry), the
    read of its rate raises a [TypeError]: [approve] fails with that
    error, not with "Unable to fetch fees", and the chain is not
    reached. *)
Theorem approve_incomplete_fees_type_error
    (this : Escrow.t) (serviceId proposalId metaEvidenceCid : string)
    (platformId : option Z) (w : World) (p : Proposal)
    (fees : ProtocolAndPlatformsFees) :
  proposal_getOne w (or_number platformId (Escrow.platformID this)) proposalId
    = Normal (Some p) →
  truthy_opt_string (cid p) = true →
  graphql_get w
    (QueryProtocolAndPlatformsFees (service_platform_id p) (platform_id p))
    = Normal (Some (mkResponse (Some fees))) →
  servicePlatform fees = None ∨ proposalPlatform fees = None
    ∨ protocols fees = [] →
  let run := Escrow.approve this serviceId proposalId metaEvidenceCid platformId w in
  trace run =
    [EProposalGetOne (or_number platformId (Escrow.platformID this)) proposalId;
     feeQuery p]
  ∧ ∃ msg, outcome run = Throw (TypeError msg).
Proof.
  intros Hp Hcid Hq Hmissing run. subst run.
  unfold Escrow.approve, Escrow.getProtocolAndPlatformsFees, feeQuery.
  js_unfold. cbn beta. rewrite Hp. cbn beta iota. rewrite Hcid. cbn [negb].
  rewrite Hq. cbn.
  destruct (servicePlatform fees) as [sp|]; cbn; [| eauto].
  destruct (proposalPlatform fees) as [pp|]; cbn; [| eauto].
  destruct (protocols fees) as [|pr rest]; cbn; [eauto |].
  destruct Hmissing as [H | [H | H]]; discriminate H.
Qed.

Lemma approve_incomplete_fees_type_error_witness :
  let run :=
    Escrow.approve sample_escrow "12" "12-7" "QmMeta" None
      (sample_world (Some (sample_proposal (Some "QmProposal") usdc_mumbai))
         (Some (mkFees (Some (mkServicePlatformFees 500)) None
                  [mkProtocolFees 300]))
         0 (Normal "0xapprove") "success") in
  trace run =
    [EProposalGetOne 1 "12-7";
     EGraphQLGet (QueryProtocolAndPlatformsFees "1" "2")]
  ∧ ∃ msg, outcome run = Throw (TypeError msg).
Proof.
  apply (approve_incomplete_fees_type_error sample_escrow "12" "12-7" "QmMeta"
           None
           (sample_world (Some (sample_proposal (Some "QmProposal") usdc_mumbai))
              (Some (mkFees (Some (mkServicePlatformFees 500)) None
                       [mkProtocolFees 300]))
              0 (Normal "0xapprove") "success")
           (sample_proposal (Some "QmProposal") usdc_mumbai)
           (mkFees (Some (mkServicePlatformFees 500)) None [mkProtocolFees 300]));
    try reflexivity.
  right. left. reflexivity.
Defined.

(** ** The creation call and the result of [approve] *)

(** Splits the membership of an event in an explicit trace. *)
Ltac in_trace :=
  repeat match goal with
         | H : _ ∨ _ |- _ => destruct H as [H | H]
         | H : False |- _ => destruct H
         | H : In _ [] |- _ => destruct H
         | H : @eq Event _ _ |- _ => discriminate H
         end.

(** X5. Once a contract write has left the client in a run of
    [approve], the ledger's answer to it decides the result: a non-empty
    hash gives [{tx, cid}] with the proposal's content identifier, an
    empty hash gives "Error creating Transaction", and an error of the
    ledger is passed on unchanged. *)
Theorem approve_outcome_after_creation
    (this : Escrow.t) (serviceId proposalId metaEvidenceCid : string)
    (platformId : option Z) (w : World)
    (contract functionName : string) (args : list JsValue) (value : option Z) :
  let run := Escrow.approve this serviceId proposalId metaEvidenceCid platformId w in
  In (EWriteContract contract functionName args value) (trace run) →
  ∃ p,
    proposal_getOne w (or_number platformId (Escrow.platformID this)) proposalId
      = Normal (Some p)
    ∧ outcome run =
        creationOutcome (writeContract w contract functionName args value)
          (default "" (cid p)).
Proof.
  cbv zeta. unfold creationOutcome.
  approve_cases.
  all: intros Hin; cbn in Hin; in_trace.
  all: injection Hin as <- <- <- <-.
  all: eexists; split; [reflexivity | congruence].
Qed.

Lemma approve_outcome_after_creation_witness :
  ∃ p,
    Normal (Some (sample_proposal (Some "QmProposal") RateToken_NATIVE))
      = Normal (Some p)
    ∧ outcome
        (Escrow.approve sample_escrow "12" "12-7" "QmMeta" None
           (sample_world
              (Some (sample_proposal (Some "QmProposal") RateToken_NATIVE))
              (Some sample_fees) 0 (Normal "0xapprove") "success"))
      = creationOutcome (Normal "0xcreate") (default "" (cid p)).
Proof.
  apply (approve_outcome_after_creation sample_escrow "12" "12-7" "QmMeta" None
           (sample_world
              (Some (sample_proposal (Some "QmProposal") RateToken_NATIVE))
              (Some sample_fees) 0 (Normal "0xapprove") "success")
           "talentLayerEscrow" "createTransaction"
           (Escrow.createTransactionArgs "12" "7" "QmMeta" "QmProposal")
           (Some 1100000)).
  vm_compute. auto.
Defined.

(** An empty hash makes the run fail although the write has been
    submitted. *)
Example approve_empty_hash :
  Escrow.approve sample_escrow "12" "12-7" "QmMeta" None
    {| proposal_getOne := λ _ _,
         Normal (Some (sample_proposal (Some "QmProposal") RateToken_NATIVE));
       service_getOne := λ _ _, Normal None;
       graphql_get := λ _, Normal (Some (mkResponse (Some sample_fees)));
       erc20_checkAllowance := λ _, Normal 0;
       erc20_approve := λ _ _, Normal "0xapprove";
       waitForTransactionReceipt := λ _, Normal (mkReceipt "success");
       writeContract := λ _ _ _ _, Normal "" |}
  = ([EProposalGetOne 1 "12-7";
      EGraphQLGet (QueryProtocolAndPlatformsFees "1" "2");
      EWriteContract "talentLayerEscrow" "createTransaction"
        [VParseInt "12" (Some 10); VParseInt "7" (Some 10);
         VString "QmMeta"; VString "QmProposal"] (Some 1100000)],
     Throw (Error "Error creating Transaction")).
Proof. reflexivity. Qed.

(** X6. [approve] returns normally only after an escrow-creation call:
    that call is the last event of the run, the returned hash is the
    ledger's (non-empty) answer to it, the returned content identifier is
    the proposal's, and the call carries the approval amount as its value
    on the native path and no value on the ERC-20 path. *)
Theorem approve_success_means_created
    (this : Escrow.t) (serviceId proposalId metaEvidenceCid : string)
    (platformId : option Z) (w : World) (r : ClientTransactionResponse) :
  let run := Escrow.approve this serviceId proposalId metaEvidenceCid platformId w in
  outcome run = Normal r →
  ∃ p amount,
    proposal_getOne w (or_number platformId (Escrow.platformID this)) proposalId
      = Normal (Some p)
    ∧ fees_resolved w p amount
    ∧ cid p = Some (response_cid r)
    ∧ truthy_string (tx r) = true
    ∧ let value :=
        if String.eqb (rateToken_address p) RateToken_NATIVE
        then Some amount else None in
      last (trace run)
        = Some (createTransactionCall serviceId metaEvidenceCid p value)
      ∧ writeContract w "talentLayerEscrow" "createTransaction"
          (Escrow.createTransactionArgs serviceId (seller_id p)
             metaEvidenceCid (response_cid r))
          value
        = Normal (tx r).
Proof.
  cbv zeta.
  unfold Escrow.approve, Escrow.getProtocolAndPlatformsFees,
    Escrow.requestApproval, fees_resolved, createTransactionCall.
  js_unfold. cbn beta.
  destruct (proposal_getOne w _ proposalId) as [[p|]|] eqn:Hp; cbn;
    [| discriminate..].
  destruct (cid p) as [c|] eqn:Hc; cbn; [| discriminate].
  destruct (truthy_string c) eqn:Hcid; cbn; [| discriminate].
  destruct (graphql_get w _) as [[[[fees|]]|]|] eqn:Hq; cbn;
    [| discriminate..].
  destruct (servicePlatform fees) as [sp|] eqn:Hsp; cbn; [| discriminate].
  destruct (proposalPlatform fees) as [pp|] eqn:Hpp; cbn; [| discriminate].
  destruct (protocols fees) as [|pr rest] eqn:Hpr; cbn; [discriminate |].
  destruct (calculateApprovalAmount _ _ _ _) as [amount|] eqn:Ha; cbn;
    [| discriminate].
  intros Hout.
  exists p, amount. rewrite Hc. cbn [default].
  split; [reflexivity |].
  split; [exists fees, sp, pp, pr, rest; auto |].
  revert Hout.
  repeat (js_step; cbn); intros Hout; try discriminate Hout;
    injection Hout as <-; cbn; auto.
Qed.

Lemma approve_success_means_created_witness :
  ∃ p amount,
    Normal (Some (sample_proposal (Some "QmProposal") usdc_mumbai))
      = Normal (Some p)
    ∧ fees_resolved
        (sample_world (Some (sample_proposal (Some "QmProposal") usdc_mumbai))
           (Some sample_fees) 0 (Normal "0xapprove") "success")
        p amount
    ∧ cid p = Some "QmProposal"
    ∧ truthy_string "0xcreate" = true
    ∧ let value :=
        if String.eqb (rateToken_address p) RateToken_NATIVE
        then Some amount else None in
      last (trace
              (Escrow.approve sample_escrow "12" "12-7" "QmMeta" None
                 (sample_world
                    (Some (sample_proposal (Some "QmProposal") usdc_mumbai))
                    (Some sample_fees) 0 (Normal "0xapprove") "success")))
        = Some (createTransactionCall "12" "QmMeta" p value)
      ∧ Normal "0xcreate" = Normal "0xcreate".
Proof.
  apply (approve_success_means_created sample_escrow "12" "12-7" "QmMeta" None
           (sample_world (Some (sample_proposal (Some "QmProposal") usdc_mumbai))
              (Some sample_fees) 0 (Normal "0xapprove") "success")
           (mkClientTransactionResponse "0xcreate" "QmProposal")).
  reflexivity.
Defined.

(** ** The order and number of the calls of a run *)

(** X7. In every run of [approve], whatever the collaborators answer:
    the proposal read comes first; at most one ERC-20 approval and at
    most one escrow-creation call are submitted (nothing is retried);
    and a contract write, when there is one, is the last event. *)
Theorem approve_trace_discipline
    (this : Escrow.t) (serviceId proposalId metaEvidenceCid : string)
    (platformId : option Z) (w : World) :
  let run := Escrow.approve this serviceId proposalId metaEvidenceCid platformId w in
  head (trace run)
    = Some (EProposalGetOne (or_number platformId (Escrow.platformID this))
              proposalId)
  ∧ (occurrences is_erc20_approve (trace run) ≤ 1)%nat
  ∧ (occurrences is_createTransaction (trace run) ≤ 1)%nat
  ∧ (∀ contract functionName args value,
       In (EWriteContract contract functionName args value) (trace run) →
       last (trace run)
         = Some (EWriteContract contract functionName args value)
       ∧ is_createTransaction
           (EWriteContract contract functionName args value) = true).
Proof.
  cbv zeta. unfold occurrences.
  approve_cases.
  all: split; [reflexivity | split; [cbn; lia | split; [cbn; lia |]]].
  all: intros contract functionName args value Hin; cbn in Hin; in_trace.
  all: injection Hin as <- <- <- <-; split; reflexivity.
Qed.

(** X8. On the ERC-20 path no native currency is attached: every
    contract write of a run whose proposal names a token other than the
    native sentinel carries no value. *)
Theorem approve_erc20_sends_no_value
    (this : Escrow.t) (serviceId proposalId metaEvidenceCid : string)
    (platformId : option Z) (w : World) (p : Proposal) :
  proposal_getOne w (or_number platformId (Escrow.platformID this)) proposalId
    = Normal (Some p) →
  rateToken_address p ≠ RateToken_NATIVE →
  Forall (λ value, value = None)
    (payment_values
       (trace (Escrow.approve this serviceId proposalId metaEvidenceCid
                 platformId w))).
Proof.
  intros Hp Htoken. apply String.eqb_neq in Htoken.
  unfold Escrow.approve, Escrow.getProtocolAndPlatformsFees,
    Escrow.requestApproval.
  js_unfold. cbn beta. rewrite Hp. cbn beta iota.
  repeat (js_step; cbn); try congruence; repeat constructor.
Qed.

Lemma approve_erc20_sends_no_value_witness :
  Forall (λ value, value = None)
    (payment_values
       (trace
          (Escrow.approve sample_escrow "12" "12-7" "QmMeta" None
             (sample_world
                (Some (sample_proposal (Some "QmProposal") usdc_mumbai))
                (Some sample_fees) 1100000 (Normal "0xapprove") "success")))).
Proof.
  apply (approve_erc20_sends_no_value sample_escrow "12" "12-7" "QmMeta" None
           (sample_world (Some (sample_proposal (Some "QmProposal") usdc_mumbai))
              (Some sample_fees) 1100000 (Normal "0xapprove") "success")
           (sample_proposal (Some "QmProposal") usdc_mumbai)).
  - reflexivity.
  - discriminate.
Defined.

Lemma approve_trace_discipline_witness :
  let run :=
    Escrow.approve sample_escrow "12" "12-7" "QmMeta" None
      (sample_world (Some (sample_proposal (Some "QmProposal") usdc_mumbai))
         (Some sample_fees) 0 (Normal "0xapprove") "success") in
  last (trace run)
    = Some (createTransactionCall "12" "QmMeta"
              (sample_proposal (Some "QmProposal") usdc_mumbai) None)
  ∧ is_createTransaction
      (createTransactionCall "12" "QmMeta"
         (sample_proposal (Some "QmProposal") usdc_mumbai) None) = true.
Proof.
  apply (proj2 (proj2 (proj2
           (approve_trace_discipline sample_escrow "12" "12-7" "QmMeta" None
              (sample_world
                 (Some (sample_proposal (Some "QmProposal") usdc_mumbai))
                 (Some sample_fees) 0 (Normal "0xapprove") "success"))))).
  vm_compute. auto 10.
Defined.

(** ** The ERC-20 path, step by step *)

Section ApproveErc20.

Variables (this : Escrow.t) (serviceId proposalId metaEvidenceCid : string).
Variables (platformId : option Z) (w : World) (p : Proposal) (amount : Z).

Let platformID := or_number platformId (Escrow.platformID this).
Let run := Escrow.approve this serviceId proposalId metaEvidenceCid platformId w.
Let create := createTransactionCall serviceId metaEvidenceCid p None.

Hypothesis Hproposal :
  proposal_getOne w platformID proposalId = Normal (Some p).
Hypothesis Hcid : truthy_opt_string (cid p) = true.
Hypothesis Hfees : fees_resolved w p amount.
Hypothesis Htoken : rateToken_address p ≠ RateToken_NATIVE.

(** Drives the run to the allowance read. *)
Ltac approve_to_allowance :=
  let fees := fresh "fees" in
  let Hq := fresh "Hq" in
  let Hsp := fresh "Hsp" in
  let Hpp := fresh "Hpp" in
  let Hpr := fresh "Hpr" in
  let Ha := fresh "Ha" in
  let Hne := fresh "Hne" in
  destruct (fees_resolved_run _ _ _ Hfees)
    as (fees & ? & ? & ? & ? & Hq & Hsp & Hpp & Hpr & Ha);
  pose proof (proj2 (String.eqb_neq _ _) Htoken) as Hne;
  subst run create; unfold Escrow.approve, createTransactionCall;
  fold platformID; js_unfold; cbn beta;
  rewrite Hproposal; cbn beta iota;
  rewrite Hcid; cbn [negb];
  rewrite Hq; cbn beta iota;
  rewrite Hsp, Hpp, Hpr; cbn beta iota;
  rewrite Ha; cbn beta iota;
  rewrite Hne.

(** X9. With an allowance below the required amount, an approval that
    is submitted and mined with a "success" receipt is followed by the
    escrow-creation call: the run is the proposal read, the fee query,
    the allowance read, the approval for the required amount, the wait
    for its receipt, and the creation call without value, in this order;
    its result is decided by the ledger's answer to the creation. *)
Theorem approve_raises_allowance_then_creates
    (allowance : Z) (hash : string) (receipt : TransactionReceipt) :
  erc20_checkAllowance w (rateToken_address p) = Normal allowance →
  allowance < amount →
  erc20_approve w (rateToken_address p) amount = Normal hash →
  waitForTransactionReceipt w hash = Normal receipt →
  status receipt = "success" →
  run =
    ([EProposalGetOne platformID proposalId; feeQuery p;
      ECheckAllowance (rateToken_address p);
      EErc20Approve (rateToken_address p) amount;
      EWaitForTransactionReceipt hash;
      create],
     creationOutcome
       (writeContract w "talentLayerEscrow" "createTransaction"
          (Escrow.createTransactionArgs serviceId (seller_id p)
             metaEvidenceCid (default "" (cid p)))
          None)
       (default "" (cid p))).
Proof.
  intros Hallowance Hlt Hhash Hreceipt Hstatus.
  apply Z.ltb_lt in Hlt. apply String.eqb_eq in Hstatus.
  approve_to_allowance. rewrite Hallowance. cbn beta iota.
  rewrite Hlt. unfold Escrow.requestApproval. js_unfold. cbn beta.
  rewrite Hhash. cbn beta iota. rewrite Hreceipt. cbn beta iota.
  rewrite Hstatus. unfold creationOutcome.
  destruct (writeContract w _ _ _ _) as [tx|]; [destruct (truthy_string tx) |];
    reflexivity.
Qed.

(** X10. With an allowance below the required amount, every failure of
    the approval step (a rejected submission, a failing wait for the
    receipt, a receipt that is not a success) ends the run with
    "Approval transaction failed with error", after the events of the
    step; the escrow-creation call is not submitted. *)
Theorem approve_approval_step_failure
    (allowance : Z) (step : list Event) (e : JsError) :
  erc20_checkAllowance w (rateToken_address p) = Normal allowance →
  allowance < amount →
  Escrow.requestApproval (rateToken_address p) amount w = (step, Throw e) →
  run =
    (app [EProposalGetOne platformID proposalId; feeQuery p;
          ECheckAllowance (rateToken_address p)] step,
     Throw (Error "Approval transaction failed with error"))
  ∧ existsb is_createTransaction (trace run) = false.
Proof.
  intros Hallowance Hlt Hstep.
  apply Z.ltb_lt in Hlt.
  assert (existsb is_createTransaction step = false) as Hnone.
  { revert Hstep. unfold Escrow.requestApproval. js_unfold. cbn beta.
    repeat (js_step; cbn); intros Hstep; injection Hstep as <- ?;
      reflexivity. }
  assert (run =
    (app [EProposalGetOne platformID proposalId; feeQuery p;
          ECheckAllowance (rateToken_address p)] step,
     Throw (Error "Approval transaction failed with error"))) as Hrun.
  { approve_to_allowance. rewrite Hallowance. cbn beta iota.
    rewrite Hlt.
    change (let (t1, c) := Escrow.requestApproval (rateToken_address p) amount w in
            match c with
            | Normal a => (t1, Normal a)
            | Throw e0 =>
                (app t1 [], Throw (Error "Approval transaction failed with error"))
            end)
      with (try_catch (Escrow.requestApproval (rateToken_address p) amount)
              (λ _, throw (Error "Approval transaction failed with error")) w)
      at 1.
    unfold try_catch, throw. rewrite Hstep. cbn. rewrite app_nil_r.
    reflexivity. }
  split; [exact Hrun |].
  subst run. rewrite Hrun. cbn. exact Hnone.
Qed.

(** X11. The allowance read is outside the [try] block: when it fails,
    its own error ends the run, unwrapped, and neither an approval nor
    the creation call is submitted. *)
Theorem approve_allowance_read_failure (e : JsError) :
  erc20_checkAllowance w (rateToken_address p) = Throw e →
  run =
    ([EProposalGetOne platformID proposalId; feeQuery p;
      ECheckAllowance (rateToken_address p)],
     Throw e).
Proof.
  intros Hallowance. approve_to_allowance. rewrite Hallowance. reflexivity.
Qed.

End ApproveErc20.

Lemma ledger_fees_resolved (proposal : option Proposal)
    (allowance : completion Z) (approval : completion string)
    (receipt : completion TransactionReceipt) (creation : completion string)
    (cid : option string) (token : string) :
  fees_resolved
    (ledger_world proposal (Some sample_fees) allowance approval receipt creation)
    (sample_proposal cid token) 1100000.
Proof.
  exists sample_fees, (mkServicePlatformFees 500), (mkProposalPlatformFees 200),
    (mkProtocolFees 300), [].
  repeat split; reflexivity.
Defined.

Lemma approve_raises_allowance_then_creates_witness :
  Escrow.approve sample_escrow "12" "12-7" "QmMeta" None
    (ledger_world (Some usdc_proposal) (Some sample_fees) (Normal 1099999)
       (Normal "0xapprove") (Normal (mkReceipt "success")) (Normal "0xcreate"))
  = ([EProposalGetOne 1 "12-7";
      EGraphQLGet (QueryProtocolAndPlatformsFees "1" "2");
      ECheckAllowance usdc_mumbai;
      EErc20Approve usdc_mumbai 1100000;
      EWaitForTransactionReceipt "0xapprove";
      EWriteContract "talentLayerEscrow" "createTransaction"
        [VParseInt "12" (Some 10); VParseInt "7" (Some 10);
         VString "QmMeta"; VString "QmProposal"] None],
     Normal (mkClientTransactionResponse "0xcreate" "QmProposal")).
Proof.
  refine (approve_raises_allowance_then_creates sample_escrow "12" "12-7"
            "QmMeta" None
            (ledger_world (Some usdc_proposal) (Some sample_fees)
               (Normal 1099999) (Normal "0xapprove")
               (Normal (mkReceipt "success")) (Normal "0xcreate"))
            usdc_proposal 1100000
            eq_refl eq_refl (ledger_fees_resolved _ _ _ _ _ _ _) _
            1099999 "0xapprove" (mkReceipt "success")
            eq_refl _ eq_refl eq_refl eq_refl);
    [discriminate | lia].
Defined.

(** The wait for the receipt fails (the node times out): the error the
    caller sees is the one of a rejected submission. *)
Lemma approve_approval_step_failure_witness :
  let run :=
    Escrow.approve sample_escrow "12" "12-7" "QmMeta" None
      (ledger_world (Some usdc_proposal) (Some sample_fees) (Normal 0)
         (Normal "0xapprove") (Throw (Error "timed out")) (Normal "0xcreate")) in
  run =
    ([EProposalGetOne 1 "12-7";
      EGraphQLGet (QueryProtocolAndPlatformsFees "1" "2");
      ECheckAllowance usdc_mumbai;
      EErc20Approve usdc_mumbai 1100000;
      EWaitForTransactionReceipt "0xapprove"],
     Throw (Error "Approval transaction failed with error"))
  ∧ existsb is_createTransaction (trace run) = false.
Proof.
  refine (approve_approval_step_failure sample_escrow "12" "12-7" "QmMeta" None
            (ledger_world (Some usdc_proposal) (Some sample_fees) (Normal 0)
               (Normal "0xapprove") (Throw (Error "timed out"))
               (Normal "0xcreate"))
            usdc_proposal 1100000
            eq_refl eq_refl (ledger_fees_resolved _ _ _ _ _ _ _) _
            0 [EErc20Approve usdc_mumbai 1100000;
               EWaitForTransactionReceipt "0xapprove"]
            (Error "timed out") eq_refl _ eq_refl);
    [discriminate | lia].
Defined.

Lemma approve_allowance_read_failure_witness :
  Escrow.approve sample_escrow "12" "12-7" "QmMeta" None
    (ledger_world (Some usdc_proposal) (Some sample_fees)
       (Throw (Error "execution reverted")) (Normal "0xapprove")
       (Normal (mkReceipt "success")) (Normal "0xcreate"))
  = ([EProposalGetOne 1 "12-7";
      EGraphQLGet (QueryProtocolAndPlatformsFees "1" "2");
      ECheckAllowance usdc_mumbai],
     Throw (Error "execution reverted")).
Proof.
  refine (approve_allowance_read_failure sample_escrow "12" "12-7" "QmMeta"
            None
            (ledger_world (Some usdc_proposal) (Some sample_fees)
               (Throw (Error "execution reverted")) (Normal "0xapprove")
               (Normal (mkReceipt "success")) (Normal "0xcreate"))
            usdc_proposal 1100000
            eq_refl eq_refl (ledger_fees_resolved _ _ _ _ _ _ _) _
            (Error "execution reverted") eq_refl).
  discriminate.
Defined.

(** ** Release and reimburse *)

(** X12. With a transaction identifier on the service, [release] and
    [reimburse] make one contract write each, to the function of their
    name, with the user, the parsed transaction identifier and the
    amount in decimal; the ledger's answer is the result as it comes (an
    empty hash included: unlike [approve], nothing is checked). *)
Theorem release_reimburse_submit
    (this : Escrow.t) (serviceId : string) (amount userId : Z)
    (platformId : option Z) (w : World) (service : option Service)
    (transactionId : string) :
  service_getOne w (or_number platformId (Escrow.platformID this)) serviceId
    = Normal service →
  Escrow.transactionId_of service = Some transactionId →
  truthy_string transactionId = true →
  let read :=
    EServiceGetOne (or_number platformId (Escrow.platformID this)) serviceId in
  let args :=
    [VNumber userId; VParseInt transactionId None; VBigIntToString amount] in
  Escrow.release this serviceId amount userId platformId w =
    ([read; EWriteContract "talentLayerEscrow" "release" args None],
     writeContract w "talentLayerEscrow" "release" args None)
  ∧ Escrow.reimburse this serviceId amount userId platformId w =
      ([read; EWriteContract "talentLayerEscrow" "reimburse" args None],
       writeContract w "talentLayerEscrow" "reimburse" args None).
Proof.
  intros Hs Hid Htruthy read args. subst read args.
  unfold Escrow.release, Escrow.reimburse. js_unfold. cbn beta.
  rewrite Hs. cbn beta iota. rewrite Hid. cbn. rewrite Htruthy. cbn.
  split; reflexivity.
Qed.

Lemma release_reimburse_submit_witness :
  Escrow.release sample_escrow "12" 500 7 None
    (service_world (Some (mkService (Some (mkTransaction "42")))))
  = ([EServiceGetOne 1 "12";
      EWriteContract "talentLayerEscrow" "release"
        [VNumber 7; VParseInt "42" None; VBigIntToString 500] None],
     Normal "0xsettle")
  ∧ Escrow.reimburse sample_escrow "12" 500 7 None
      (service_world (Some (mkService (Some (mkTransaction "42")))))
    = ([EServiceGetOne 1 "12";
        EWriteContract "talentLayerEscrow" "reimburse"
          [VNumber 7; VParseInt "42" None; VBigIntToString 500] None],
       Normal "0xsettle").
Proof.
  apply (release_reimburse_submit sample_escrow "12" 500 7 None
           (service_world (Some (mkService (Some (mkTransaction "42")))))
           (Some (mkService (Some (mkTransaction "42")))) "42");
    reflexivity.
Defined.

(** X13. The errors of [release] and [reimburse] are exactly three: the
    error of the service read, "service transaction not found", and the
    error of the ledger write.  The second check of the source
    ("Transaction Id not found for service") never fires. *)
Theorem release_reimburse_errors
    (this : Escrow.t) (serviceId : string) (amount userId : Z)
    (platformId : option Z) (w : World) (e : JsError) :
  outcome (Escrow.release this serviceId amount userId platformId w) = Throw e
  ∨ outcome (Escrow.reimburse this serviceId amount userId platformId w) = Throw e →
  service_getOne w (or_number platformId (Escrow.platformID this)) serviceId
    = Throw e
  ∨ e = Error "service transaction not found"
  ∨ ∃ functionName args,
      writeContract w "talentLayerEscrow" functionName args None = Throw e.
Proof.
  unfold Escrow.release, Escrow.reimburse. js_unfold. cbn beta.
  destruct (service_getOne w _ serviceId) as [service|e0]; cbn.
  - destruct (truthy_opt_string (Escrow.transactionId_of service)); cbn.
    + intros [H | H]; right; right; eauto.
    + intros [H | H]; injection H as <-; auto.
  - intros [H | H]; injection H as <-; auto.
Qed.

Lemma release_reimburse_errors_witness :
  service_getOne (service_world None) 1 "12"
    = Throw (Error "service transaction not found")
  ∨ Error "service transaction not found" = Error "service transaction not found"
  ∨ ∃ functionName args,
      writeContract (service_world None) "talentLayerEscrow" functionName args
        None
      = Throw (Error "service transaction not found").
Proof.
  apply (release_reimburse_errors sample_escrow "12" 500 7 None
           (service_world None) (Error "service transaction not found")).
  left. reflexivity.
Defined.

(** * Further properties of the platform module and the configuration *)

(** ** The allow-list when no arbitrator is configured *)

(** X14. When the platform has no arbitrator to put on the allow-list
    (no custom configuration and a wallet chain outside the static
    table, or a custom configuration without a [talentLayerArbitrator]
    entry), [updateArbitrator] fails with a [TypeError] for every
    address, the zero address included, and writes nothing. *)
Theorem updateArbitrator_without_allow_list {ids : NetworkIds}
    (this : Platform.t) (address : string) (platformId : option Z) (w : World) :
  (Platform.customConfig this = None
   ∧ ∀ n : NetworkEnum, Platform.wallet_chainId this ≠ networkId_of n)
  ∨ (∃ custom,
       Platform.customConfig this = Some custom
       ∧ contracts (Platform.contractConfig custom) !! "talentLayerArbitrator"
         = None) →
  ∃ msg,
    Platform.updateArbitrator this address platformId w
      = ([], Throw (TypeError msg)).
Proof.
  intros [[Hnone Hchain] | (custom & Hcustom & Hentry)];
    unfold Platform.updateArbitrator, Platform.getArbitrators,
      Platform.chainConfig_of; js_unfold.
  - rewrite Hnone, (getChainConfig_outside _ Hchain). eauto.
  - rewrite Hcustom, Hentry. eauto.
Qed.

Lemma updateArbitrator_without_allow_list_witness :
  ∃ msg,
    Platform.updateArbitrator (ids := sample_ids) (sample_platform 1)
      zeroAddress None (service_world None)
    = ([], Throw (TypeError msg)).
Proof.
  apply (updateArbitrator_without_allow_list (ids := sample_ids)
           (sample_platform 1) zeroAddress None (service_world None)).
  left. split; [reflexivity |]. intros n. destruct n; discriminate.
Defined.

(** ** The subgraph endpoint of a chain *)

(** X15. [getGraphQLConfig] succeeds exactly on the values of the six
    members of [NetworkEnum], whatever the four undeclared values are:
    it then echoes the requested identifier and gives the subgraph URL
    of the configuration the lookup returns; for 1337 ([LOCAL]) that is
    the Mumbai URL.  On any other identifier it raises a [TypeError]. *)
Theorem getGraphQLConfig_domain {ids : NetworkIds} (chainId : Z) :
  (∀ n : NetworkEnum,
     chainId = networkId_of n →
     ∃ c, getChainConfig chainId = Some c
          ∧ getGraphQLConfig chainId
            = Normal (mkGraphQLConfig chainId (subgraphUrl c)))
  ∧ (chainId = 1337 →
     getGraphQLConfig chainId
       = Normal
           (mkGraphQLConfig 1337
              "https://api.thegraph.com/subgraphs/name/talentlayer/talent-layer-mumbai"))
  ∧ ((∀ n : NetworkEnum, chainId ≠ networkId_of n) →
     ∃ msg, getGraphQLConfig chainId = Throw (TypeError msg)).
Proof.
  split; [| split].
  - intros n ->. unfold getGraphQLConfig.
    destruct (getChainConfig_member n) as [c Hc].
    exists c. rewrite Hc. split; reflexivity.
  - intros ->. unfold getGraphQLConfig. rewrite getChainConfig_local.
    reflexivity.
  - intros Hz. unfold getGraphQLConfig.
    rewrite (getChainConfig_outside _ Hz). eauto.
Qed.

Lemma getGraphQLConfig_domain_witness :
  getGraphQLConfig (ids := sample_ids) 1337
  = Normal
      (mkGraphQLConfig 1337
         "https://api.thegraph.com/subgraphs/name/talentlayer/talent-layer-mumbai").
Proof.
  apply (proj1 (proj2 (getGraphQLConfig_domain (ids := sample_ids) 1337))).
  reflexivity.
Defined.

(** ** Invariants of the static table *)

(** X16. In every configuration the lookup can return, each token is
    filed under its own address, and the native currency is filed under
    the zero address with 18 decimals: the native sentinel [approve]
    tests against is a key of every token table. *)
Theorem token_tables_well_keyed {ids : NetworkIds} (z : Z) (c : Config) :
  getChainConfig z = Some c →
  (∃ native,
     tokens c !! RateToken_NATIVE = Some native
     ∧ token_decimals native = 18)
  ∧ ∀ address token,
      tokens c !! address = Some token → token_address token = address.
Proof.
  intros Hc.
  destruct (getChainConfig_cases z c Hc) as [-> | [-> | [-> | [-> | ->]]]].
  all: split; [eexists; split; vm_compute; reflexivity |].
  all: intros address token Ht;
    cbn [tokens amoy mumbai iexec polygon fuji] in Ht;
    apply elem_of_list_to_map_2 in Ht;
    repeat (apply elem_of_cons in Ht as [Ht | Ht];
            [injection Ht as -> ->; reflexivity |]);
    apply elem_of_nil in Ht; destruct Ht.
Qed.

(** The Mumbai table, reached through [LOCAL]: MATIC under the zero
    address, and the USDC entry under its own address. *)
Lemma token_tables_well_keyed_witness :
  (∃ native,
     tokens (mumbai (ids := sample_ids)) !! RateToken_NATIVE = Some native
     ∧ token_decimals native = 18)
  ∧ (tokens (mumbai (ids := sample_ids)) !! usdc_mumbai
       = Some (mkToken usdc_mumbai "USDC" "USDC Stablecoin" 6)
     ∧ token_address (mkToken usdc_mumbai "USDC" "USDC Stablecoin" 6)
       = usdc_mumbai).
Proof.
  destruct (token_tables_well_keyed (ids := sample_ids) 1337 mumbai eq_refl)
    as [Hnative Hkey].
  split; [exact Hnative |].
  assert (tokens (mumbai (ids := sample_ids)) !! usdc_mumbai
          = Some (mkToken usdc_mumbai "USDC" "USDC Stablecoin" 6)) as Hl
    by (vm_compute; reflexivity).
  split; [exact Hl | exact (Hkey _ _ Hl)].
Defined.

(** ** Percentages with two decimals *)

Lemma hundredths_exact : forallb two_decimals_exact hundredths = true.
Proof. vm_compute. reflexivity. Qed.

Lemma two_decimals_round (k : Z) :
  0 ≤ k ≤ 10000 →
  Math_round (((number_of_Z k / 100) * number_of_Z FEE_RATE_DIVIDER) / 100)%float
  = number_of_Z k.
Proof.
  intros Hk.
  apply FloatAxioms.Leibniz.eqb_spec.
  change (two_decimals_exact k = true).
  pose proof hundredths_exact as Hall.
  rewrite forallb_forall in Hall. apply Hall.
  unfold hundredths. apply in_map_iff.
  exists (Z.to_nat k). split; [lia |].
  apply in_seq. lia.
Qed.

(** X17. A percentage with at most two decimals between 0 and 100, that
    is [k/100] for a whole [k] from 0 to 10000, is submitted by both
    fee-rate updates as exactly [k] basis points, although [k/100] is
    not exact in binary: the rounding absorbs the representation error. *)
Theorem fee_rate_two_decimals_exact
    (this : Platform.t) (k : Z) (platformId : option Z) (w : World) :
  0 ≤ k ≤ 10000 →
  let value := (number_of_Z k / 100)%float in
  let args :=
    [VNumber (or_number platformId (Platform.platformID this));
     VFloat (number_of_Z k)] in
  trace (Platform.updateOriginServiceFeeRate this value platformId w)
    = [EWriteContract "talentLayerPlatformId" "updateOriginServiceFeeRate"
         args None]
  ∧ trace (Platform.updateOriginValidatedProposalFeeRate this value platformId w)
    = [EWriteContract "talentLayerPlatformId"
         "updateOriginValidatedProposalFeeRate" args None].
Proof.
  intros Hk value args. subst value args.
  unfold Platform.updateOriginServiceFeeRate,
    Platform.updateOriginValidatedProposalFeeRate, call, trace.
  cbn [fst]. rewrite (two_decimals_round k Hk). split; reflexivity.
Qed.

Lemma fee_rate_two_decimals_exact_witness :
  trace (Platform.updateOriginServiceFeeRate (sample_platform 80001)
           (number_of_Z 57 / 100)%float None (service_world None))
    = [EWriteContract "talentLayerPlatformId" "updateOriginServiceFeeRate"
         [VNumber 1; VFloat (number_of_Z 57)] None]
  ∧ trace (Platform.updateOriginValidatedProposalFeeRate (sample_platform 80001)
             (number_of_Z 57 / 100)%float None (service_world None))
    = [EWriteContract "talentLayerPlatformId"
         "updateOriginValidatedProposalFeeRate"
         [VNumber 1; VFloat (number_of_Z 57)] None].
Proof.
  apply (fee_rate_two_decimals_exact (sample_platform 80001) 57 None
           (service_world None)).
  lia.
Defined.

(** Truncation would lose a basis point at 0.57 %. *)
Example truncation_loses_a_basis_point :
  Math_trunc (((number_of_Z 57 / 100) * number_of_Z FEE_RATE_DIVIDER) / 100)%float
  = 56%float.
Proof. vm_compute. reflexivity. Qed.

(** ** The contracts the client writes to *)





(** * Properties of the subgraph readers and of the metadata updates *)

Ltac jsc_unfold :=
  unfold graphQlClient_get, ipfs_upload, wallet_writeContract in *;
  unfold mbind, mret, JsC_mbind, JsC_mret, JsC_bind, JsC_ret, callC, liftC,
    throwC, on_ledger, call, traceC, outcomeC in *.

(** ** Readers *)

Lemma js_or_null (v : Json) :
  js_or v JNull = JNull ∨ truthy (js_or v JNull) = true.
Proof.
  unfold js_or. destruct (truthy v) eqn:E; [right; exact E | left; reflexivity].
Qed.

(** X19. [Escrow.getByService], [Platform.getOne], [Profile.getById],
    [getTotalGains], [getPayments] and [getMintFees] each send their one
    query and nothing else; an error of the subgraph client is passed
    on; otherwise the result is a truthy value or [null], never
    [undefined] or another falsy value. *)
Theorem readers_default_to_null
    (query : SubgraphQuery) (reader : JsC Json) (c : Client) :
  null_default_read query reader →
  traceC (reader c) = [ESubgraphGet query]
  ∧ (∀ e, subgraph_get c query = Throw e → outcomeC (reader c) = Throw e)
  ∧ (∀ v, outcomeC (reader c) = Normal v → v = JNull ∨ truthy v = true).
Proof.
  intros Hread.
  destruct Hread;
    unfold Escrow.getByService, Platform.getOne, Profile.getById,
      Profile.getTotalGains, Profile.getPayments, Profile.getMintFees;
    jsc_unfold; cbv beta;
    (destruct (subgraph_get c _) as [response|e0] eqn:Hget; cbn;
     [| split; [reflexivity |];
        split; [intros e He; congruence | intros v Hv; discriminate Hv]]).
  all: try (split; [reflexivity |];
            split; [intros e He; discriminate He |];
            intros v Hv; injection Hv as <-; apply js_or_null).
  (* Platform.getOne tests the value and returns it or null. *)
  destruct (truthy (opt_get "platform" (opt_get "data" response))) eqn:E; cbn;
    (split; [reflexivity |];
     split; [intros e He; discriminate He |];
     intros v Hv; injection Hv as <-; auto).
Qed.

Lemma readers_default_to_null_witness :
  JArray [] = JNull ∨ truthy (JArray []) = true.
Proof.
  apply (proj2 (proj2
           (readers_default_to_null (QueryPaymentsByService "12" None)
              (Escrow.getByService "12" None)
              (sample_client (Normal (data_response "payments" (JArray [])))
                 (Normal "") (Normal ""))
              (read_getByService "12" None)))
           (JArray [])).
  reflexivity.
Defined.

(** An empty list of payments is handed back as it is: it is truthy. *)
Example getByService_empty_array :
  outcomeC (Escrow.getByService "12" None
             (sample_client (Normal (data_response "payments" (JArray [])))
                (Normal "") (Normal "")))
  = Normal (JArray []).
Proof. reflexivity. Qed.

(** X20. [Platform.getByOwner] always returns a truthy value: the
    [platforms] of the answer when that is truthy, and the empty array in
    every other case (no answer, no [data], no [platforms]). *)
Theorem getByOwner_defaults_to_empty_array
    (address : string) (c : Client) (response : Json) :
  subgraph_get c (QueryPlatformsByOwner address) = Normal response →
  let platforms := opt_get "platforms" (opt_get "data" response) in
  Platform.getByOwner address c =
    ([ESubgraphGet (QueryPlatformsByOwner address)],
     Normal (if truthy platforms then platforms else JArray []))
  ∧ ∀ v, outcomeC (Platform.getByOwner address c) = Normal v → truthy v = true.
Proof.
  intros Hget platforms. subst platforms.
  unfold Platform.getByOwner. jsc_unfold. cbv beta. rewrite Hget. cbv beta iota.
  destruct (truthy (opt_get "platforms" (opt_get "data" response))) eqn:E; cbn;
    (split; [reflexivity |]); intros v Hv; injection Hv as <-;
    [exact E | reflexivity].
Qed.

Lemma getByOwner_defaults_to_empty_array_witness :
  Platform.getByOwner "0xC01FcDfDE3B2ABA1eab76731493C617FfAED2F10"
    (sample_client (Normal JUndefined) (Normal "") (Normal ""))
  = ([ESubgraphGet
        (QueryPlatformsByOwner "0xC01FcDfDE3B2ABA1eab76731493C617FfAED2F10")],
     Normal (JArray [])).
Proof.
  apply (proj1 (getByOwner_defaults_to_empty_array
                  "0xC01FcDfDE3B2ABA1eab76731493C617FfAED2F10"
                  (sample_client (Normal JUndefined) (Normal "") (Normal ""))
                  JUndefined eq_refl)).
Defined.

Lemma array_users_truthy_response (response : Json) :
  isArray (opt_get "users" (opt_get "data" response)) = true →
  truthy response = true.
Proof.
  destruct response; cbn; try discriminate; reflexivity.
Qed.

(** X21. [Profile.getByAddress] returns the first element of
    [response.data.users] when that is an array, and [null] otherwise.
    For an empty array the result is [undefined], not [null]. *)
Theorem getByAddress_first_user
    (address : string) (c : Client) (response : Json) :
  subgraph_get c (QueryProfileByAddress address) = Normal response →
  let users := opt_get "users" (opt_get "data" response) in
  Profile.getByAddress address c =
    ([ESubgraphGet (QueryProfileByAddress address)],
     Normal (if isArray users then first_item users else JNull))
  ∧ (users = JArray [] →
     outcomeC (Profile.getByAddress address c) = Normal JUndefined).
Proof.
  intros Hget users.
  assert (Profile.getByAddress address c =
            ([ESubgraphGet (QueryProfileByAddress address)],
             Normal (if isArray users then first_item users else JNull))) as Hrun.
  { unfold Profile.getByAddress. jsc_unfold. cbv beta. rewrite Hget. cbv beta iota.
    fold users.
    destruct (isArray users) eqn:Harr.
    - pose proof (array_users_truthy_response response Harr) as Hresp.
      unfold js_and. rewrite Hresp.
      destruct users; try discriminate Harr. reflexivity.
    - unfold js_and.
      destruct (truthy response) eqn:Hresp;
        [destruct (truthy users) eqn:Husers |];
        cbn; rewrite ?Husers, ?Hresp; reflexivity.
  }
  split; [exact Hrun |].
  intros Hempty. rewrite Hrun, Hempty. reflexivity.
Qed.

Lemma getByAddress_first_user_witness :
  outcomeC
    (Profile.getByAddress "0xC01FcDfDE3B2ABA1eab76731493C617FfAED2F10"
       (sample_client (Normal (data_response "users" (JArray [])))
          (Normal "") (Normal "")))
  = Normal JUndefined.
Proof.
  apply (proj2 (getByAddress_first_user
                  "0xC01FcDfDE3B2ABA1eab76731493C617FfAED2F10"
                  (sample_client (Normal (data_response "users" (JArray [])))
                     (Normal "") (Normal ""))
                  (data_response "users" (JArray [])) eq_refl)).
  reflexivity.
Defined.

(** ** Metadata updates *)

(** X22. [Platform.update] and [Profile.update] upload first and write
    second, and check the content identifier only after the write: when
    the upload fails nothing is written; when it returns, the contract
    write is submitted with the identifier it returned, an empty one
    included, and an empty identifier or hash then makes the call fail
    with the module's update error. *)
Theorem updates_write_before_checking
    (this : Platform.t) (data : Json) (platformId : option Z)
    (userId : string) (c : Client) :
  let platformWrite cid :=
    EWriteContract "talentLayerPlatformId" "updateProfileData"
      [VNumber (or_number platformId (Platform.platformID this)); VString cid]
      None in
  let profileWrite cid :=
    EWriteContract "talentLayerId" "updateProfileData"
      [VString userId; VString cid] None in
  (∀ e, ipfs_post c data = Throw e →
        Platform.update this data platformId c = ([EIpfsPost data], Throw e)
        ∧ Profile.update data userId c = ([EIpfsPost data], Throw e))
  ∧ (∀ cid, ipfs_post c data = Normal cid →
        traceC (Platform.update this data platformId c)
          = [EIpfsPost data; OnLedger (platformWrite cid)]
        ∧ traceC (Profile.update data userId c)
          = [EIpfsPost data; OnLedger (profileWrite cid)])
  ∧ (ipfs_post c data = Normal "" →
        (∀ r, outcomeC (Platform.update this data platformId c) ≠ Normal r)
        ∧ (∀ r, outcomeC (Profile.update data userId c) ≠ Normal r)).
Proof.
  cbv zeta.
  unfold Platform.update, Profile.update, Platform.upload, Profile.upload.
  jsc_unfold. cbv beta.
  split; [| split].
  - intros e He. rewrite He. split; reflexivity.
  - intros cid Hcid. rewrite Hcid. cbv beta iota.
    split.
    + destruct (writeContract (ledger c) "talentLayerPlatformId" _ _ _) as [tx|];
        cbn; [destruct (_ || _) |]; reflexivity.
    + destruct (writeContract (ledger c) "talentLayerId" _ _ _) as [tx|];
        cbn; [destruct (_ && _) |]; reflexivity.
  - intros Hcid. rewrite Hcid. cbv beta iota.
    split; intros r.
    + destruct (writeContract (ledger c) "talentLayerPlatformId" _ _ _) as [tx|];
        cbn; discriminate.
    + destruct (writeContract (ledger c) "talentLayerId" _ _ _) as [tx|];
        cbn; discriminate.
Qed.

Lemma updates_write_before_checking_witness :
  traceC (Platform.update (sample_platform 80001) (JObject []) None
            (sample_client (Normal JNull) (Normal "") (Normal "0xupdate")))
    = [EIpfsPost (JObject []);
       OnLedger
         (EWriteContract "talentLayerPlatformId" "updateProfileData"
            [VNumber 1; VString ""] None)]
  ∧ traceC (Profile.update (JObject []) "7"
              (sample_client (Normal JNull) (Normal "") (Normal "0xupdate")))
    = [EIpfsPost (JObject []);
       OnLedger
         (EWriteContract "talentLayerId" "updateProfileData"
            [VString "7"; VString ""] None)].
Proof.
  apply (proj1 (proj2
           (updates_write_before_checking (sample_platform 80001) (JObject [])
              None "7"
              (sample_client (Normal JNull) (Normal "") (Normal "0xupdate"))))
           "").
  reflexivity.
Defined.

(** X23. A successful [Platform.update] or [Profile.update] returns the
    content identifier the store gave and the hash the ledger gave, both
    non-empty. *)
Theorem updates_return_what_was_stored
    (this : Platform.t) (data : Json) (platformId : option Z)
    (userId : string) (c : Client) (r : ClientTransactionResponse) :
  outcomeC (Platform.update this data platformId c) = Normal r
  ∨ outcomeC (Profile.update data userId c) = Normal r →
  ipfs_post c data = Normal (response_cid r)
  ∧ truthy_string (response_cid r) = true
  ∧ truthy_string (tx r) = true
  ∧ ∃ contract args,
      writeContract (ledger c) contract "updateProfileData" args None
        = Normal (tx r)
      ∧ last args = Some (VString (response_cid r)).
Proof.
  unfold Platform.update, Profile.update, Platform.upload, Profile.upload.
  jsc_unfold. cbv beta.
  destruct (ipfs_post c data) as [cid|e]; cbv beta iota;
    [| intros [H | H]; discriminate H].
  intros [H | H].
  - destruct (writeContract (ledger c) "talentLayerPlatformId" _ _ _)
      as [hash|] eqn:Hw; cbn in H; [| discriminate H].
    destruct (truthy_string cid) eqn:Hc, (truthy_string hash) eqn:Hh;
      cbn in H; try discriminate H.
    injection H as <-. cbn. repeat split; try assumption.
    eexists _, _. split; [exact Hw | reflexivity].
  - destruct (writeContract (ledger c) "talentLayerId" _ _ _)
      as [hash|] eqn:Hw; cbn in H; [| discriminate H].
    destruct (truthy_string cid) eqn:Hc, (truthy_string hash) eqn:Hh;
      cbn in H; try discriminate H.
    injection H as <-. cbn. repeat split; try assumption.
    eexists _, _. split; [exact Hw | reflexivity].
Qed.

Lemma updates_return_what_was_stored_witness :
  @Normal string "QmDetails" = Normal "QmDetails"
  ∧ truthy_string "QmDetails" = true
  ∧ truthy_string "0xupdate" = true
  ∧ ∃ contract args,
      writeContract
        (ledger (sample_client (Normal JNull) (Normal "QmDetails")
                   (Normal "0xupdate")))
        contract "updateProfileData" args None
        = Normal "0xupdate"
      ∧ last args = Some (VString "QmDetails").
Proof.
  apply (updates_return_what_was_stored (sample_platform 80001) (JObject [])
           None "7"
           (sample_client (Normal JNull) (Normal "QmDetails") (Normal "0xupdate"))
           (mkClientTransactionResponse "0xupdate" "QmDetails")).
  left. reflexivity.
Defined.

(** ** Profile creation *)

(** X24. [Profile.create] reads the protocol record first.  When the
    answer has no protocol, or a protocol without a truthy [id], it
    fails with "Protocol not found": the fee is not converted and nothing
    is written. *)
Theorem create_protocol_not_found
    (BigInt : Json → completion Z) (this : Profile.t) (handle : string)
    (platformId : option Z) (c : Client) (response : Json) :
  subgraph_get c (QueryProtocolById 1) = Normal response →
  truthy (opt_get "id" (opt_get "protocol" (opt_get "data" response))) = false →
  Profile.create BigInt this handle platformId c =
    ([ESubgraphGet (QueryProtocolById 1)], Throw (Error "Protocol not found")).
Proof.
  intros Hget Hid.
  unfold Profile.create. jsc_unfold. cbv beta. rewrite Hget. cbv beta iota zeta.
  rewrite Hid. reflexivity.
Qed.

Lemma create_protocol_not_found_witness :
  Profile.create sample_BigInt (Profile.mk 1) "alice" None
    (sample_client (Normal (data_response "protocol" JNull))
       (Normal "") (Normal "0xmint"))
  = ([ESubgraphGet (QueryProtocolById 1)], Throw (Error "Protocol not found")).
Proof.
  apply (create_protocol_not_found sample_BigInt (Profile.mk 1) "alice" None
           (sample_client (Normal (data_response "protocol" JNull))
              (Normal "") (Normal "0xmint"))
           (data_response "protocol" JNull));
    reflexivity.
Defined.

(** X25. With a protocol record, [Profile.create] mints on
    [talentLayerId] with the platform identifier in decimal and the
    handle, and attaches as value the protocol's [userMintFee] converted
    to a bigint: the fee comes from the subgraph, not from the caller.
    When the conversion throws, its error ends the call and nothing is
    written. *)
Theorem create_mints_with_protocol_fee
    (BigInt : Json → completion Z) (this : Profile.t) (handle : string)
    (platformId : option Z) (c : Client) (response : Json) :
  subgraph_get c (QueryProtocolById 1) = Normal response →
  let protocol := opt_get "protocol" (opt_get "data" response) in
  truthy (opt_get "id" protocol) = true →
  let args :=
    [VBigIntToString (or_number platformId (Profile.platformId this));
     VString handle] in
  (∀ fee, BigInt (get "userMintFee" protocol) = Normal fee →
     Profile.create BigInt this handle platformId c =
       ([ESubgraphGet (QueryProtocolById 1);
         OnLedger (EWriteContract "talentLayerId" "mint" args (Some fee))],
        writeContract (ledger c) "talentLayerId" "mint" args (Some fee)))
  ∧ (∀ e, BigInt (get "userMintFee" protocol) = Throw e →
     Profile.create BigInt this handle platformId c =
       ([ESubgraphGet (QueryProtocolById 1)], Throw e)).
Proof.
  intros Hget protocol Hid args. subst protocol args.
  unfold Profile.create. jsc_unfold. cbv beta. rewrite Hget. cbv beta iota zeta.
  rewrite Hid. cbv beta iota.
  split.
  - intros fee Hfee. rewrite Hfee. cbn.
    destruct (writeContract (ledger c) _ _ _ _); reflexivity.
  - intros e He. rewrite He. reflexivity.
Qed.

Lemma create_mints_with_protocol_fee_witness :
  Profile.create sample_BigInt (Profile.mk 1) "alice" (Some 5)
    (sample_client
       (Normal (data_response "protocol"
                  (JObject [("id", JString "1"); ("userMintFee", JString "1000")])))
       (Normal "") (Normal "0xmint"))
  = ([ESubgraphGet (QueryProtocolById 1);
      OnLedger
        (EWriteContract "talentLayerId" "mint"
           [VBigIntToString 5; VString "alice"] (Some 1000))],
     Normal "0xmint").
Proof.
  apply (proj1 (create_mints_with_protocol_fee sample_BigInt (Profile.mk 1)
                  "alice" (Some 5)
                  (sample_client
                     (Normal (data_response "protocol"
                                (JObject [("id", JString "1");
                                          ("userMintFee", JString "1000")])))
                     (Normal "") (Normal "0xmint"))
                  (data_response "protocol"
                     (JObject [("id", JString "1");
                               ("userMintFee", JString "1000")]))
                  eq_refl eq_refl)
           1000).
  reflexivity.
Defined.

(** * The two tables of networks *)

(** X26. The table of chain definitions is narrower than the table of
    contract configurations: the value of every member of [NetworkEnum]
    has a configuration, but, the six values being different, those of
    [FUJI] and [LOCAL] have no chain definition, and they are the only
    ones. *)
Theorem chain_definitions_cover_four_networks {ids : NetworkIds}
    (n : NetworkEnum) :
  distinct_ids →
  is_Some (getChainConfig (networkId_of n))
  ∧ (viem_chains !! networkId_of n = None ↔ n = FUJI ∨ n = LOCAL).
Proof.
  intros Hd. split; [apply getChainConfig_member |].
  assert (∀ n', n ≠ n' → networkId_of n' ≠ networkId_of n) as Hne
    by (intros n' H; apply distinct_ids_ne; [exact Hd | congruence]).
  unfold viem_chains. split.
  - destruct n; auto; intros H;
      repeat first
        [ rewrite lookup_insert_eq in H; discriminate H
        | rewrite lookup_insert_ne in H by (apply Hne; discriminate) ].
  - intros [-> | ->];
      rewrite !lookup_insert_ne by (apply Hne; discriminate);
      apply lookup_empty.
Qed.

Lemma chain_definitions_cover_four_networks_witness :
  viem_chains (ids := sample_ids) !! networkId_of (ids := sample_ids) FUJI = None.
Proof.
  apply (proj2 (proj2 (chain_definitions_cover_four_networks (ids := sample_ids)
                         FUJI ltac:(vm_compute; repeat constructor;
                                    rewrite ?elem_of_cons, elem_of_nil;
                                    intuition discriminate)))).
  left. reflexivity.
Defined.
